(** * fontTools.pens.statisticsPen: the derived-statistics layer

    A shallow embedding of [StatisticsPen] (Lib/fontTools/pens/statisticsPen.py)
    and the properties of its recomputation [__update].

    - Python floats are IEEE 754 binary64 numbers: they are Rocq's primitive
      [float], whose operations are specified by [SpecFloat]; Python ints
      are [Z]. A pen attribute holds either ([pyval]).
    - Exceptions are explicit. An operation that can raise returns a
      [result]; a method is a state transformer that returns the pen as the
      exception left it, with the attributes assigned so far.
    - [**] on floats is CPython's [float_pow]: its own treatment of special
      values and of overflow ([OverflowError]) is modelled as it is; the C
      library's [pow], which it calls on every other base and which is not
      correctly rounded, is a parameter ([Libm]).
    - The parent class [MomentsPen] is not part of the sources: it is a
      parameter ([Parent]). *)

From Stdlib Require Import ZArith Bool List Lia.
From Stdlib Require Import Floats.
Import ListNotations.

Local Open Scope float_scope.

(** ** Python values and exceptions *)

(** The numbers a pen attribute holds: [int] or [float]. *)
Inductive pyval : Type :=
  | PyInt (z : Z)
  | PyFloat (f : float).

Inductive exn : Type :=
  | ZeroDivisionError
  | OverflowError.

Inductive result (A : Type) : Type :=
  | Ok (a : A)
  | Raise (e : exn).
Arguments Ok {A} a.
Arguments Raise {A} e.

(** ** The C library's [pow]

    CPython's [float_pow] answers [x ** y] itself when the base is NaN, an
    infinity, a zero or 1.0, and hands every other base to the C library's
    [pow]. How [pow] rounds is the library's business: it is not correctly
    rounded (with glibc 2.36, [2.759 ** 2] and [2.759 * 2.759] differ in the
    last bit, and so do [2921.0 ** 0.5] and the square root of 2921.0). It is
    a parameter here, with three facts about its range:
    - [pow(|x|, 2.0)] is infinite exactly where the binary64 product
      [x * x] is: no binary64 number has a square between
      [2**1024 - 2**972 + 2**918] and [2**1024], so a [pow] that errs by
      less than the last place and the rounded product overflow together;
    - [pow(|x|, 0.5)] is a number when [x] is (C99 F.9.4.4), and finite
      when [x] is. *)
Class Libm : Type := {
  libm_pow : float -> float -> float;
  square_range :
    forall x : float, is_infinity (libm_pow (abs x) 2) = is_infinity (x * x);
  root_number :
    forall x : float,
      is_nan x = false -> is_nan (libm_pow (abs x) 0.5) = false;
  root_range :
    forall x : float,
      is_infinity x = false -> is_infinity (libm_pow (abs x) 0.5) = false
}.

(** ** Python arithmetic, as far as [__update] uses it *)

Module Py.

(** [bool(v)]: an int is true unless it is 0; a float is true unless it
    compares equal to 0.0 (so -0.0 is false and NaN is true). *)
Definition truthy (v : pyval) : bool :=
  match v with
  | PyInt z => negb (z =? 0)%Z
  | PyFloat f => negb (f =? 0)
  end.

(** [float(z)] for an int (PyLong_AsDouble): rounded to nearest, ties to
    even; OverflowError when the rounded value is out of range. *)
Definition float_of_int (z : Z) : result float :=
  match binary_normalize prec emax z 0 false with
  | S754_infinity _ => Raise OverflowError
  | s => Ok (SF2Prim s)
  end.

Definition as_float (v : pyval) : result float :=
  match v with
  | PyInt z => float_of_int z
  | PyFloat f => Ok f
  end.

(** [a / b] on two floats (float_div): ZeroDivisionError when the divisor
    compares equal to zero, the IEEE quotient otherwise. *)
Definition float_truediv (a b : float) : result float :=
  if b =? 0 then Raise ZeroDivisionError else Ok (a / b).

Definition spec_of_int (z : Z) : spec_float :=
  match z with
  | Z0 => S754_zero false
  | Zpos p => S754_finite false p 0
  | Zneg p => S754_finite true p 0
  end.

(** [a / b] on two ints (long_true_divide): the exact quotient rounded
    once, to nearest; ZeroDivisionError for a zero divisor, OverflowError
    when the rounded quotient is out of range. *)
Definition int_truediv (a b : Z) : result float :=
  if (b =? 0)%Z then Raise ZeroDivisionError
  else
    match SFdiv prec emax (spec_of_int a) (spec_of_int b) with
    | S754_infinity _ => Raise OverflowError
    | s => Ok (SF2Prim s)
    end.

(** [x / y]: int / int is [int_truediv]; any other pair is converted to
    floats first (left operand, then right), then divided. The result is
    always a float. *)
Definition truediv (x y : pyval) : result float :=
  match x, y with
  | PyInt a, PyInt b => int_truediv a b
  | _, _ =>
      match as_float x with
      | Raise e => Raise e
      | Ok a =>
          match as_float y with
          | Raise e => Raise e
          | Ok b => float_truediv a b
          end
      end
  end.

(** The value [float_pow] has for [x ** 2] before its range check. In the
    order of its tests: a NaN base is returned; an infinity gives
    [fabs(x)]; a zero gives 0.0; a negative base is negated (2 is even: the
    result is not); 1.0 gives 1.0; any other base goes to the C library. *)
Definition square {L : Libm} (x : float) : float :=
  if is_nan x then x
  else if is_infinity x then abs x
  else if x =? 0 then 0
  else if abs x =? 1 then 1
  else libm_pow (abs x) 2.

(** [x ** 2] on a float: OverflowError when the C library answers an
    infinity for a finite base ([1e200 ** 2] raises
    [OverflowError: (34, 'Numerical result out of range')], where
    [1e200 * 1e200] is [inf]); a result that underflows is returned. *)
Definition pow2 {L : Libm} (x : float) : result float :=
  let r := square x in
  if is_infinity r && negb (is_infinity x) then Raise OverflowError
  else Ok r.

(** The value [float_pow] has for [x ** 0.5] before its range check, on a
    float whose sign bit is clear (the only use in [__update] is on
    [abs(v)]; a negative base would give a complex number): NaN for NaN,
    +inf for +inf, 0.0 for 0.0, 1.0 for 1.0, and the C library's answer for
    any other base. *)
Definition root {L : Libm} (x : float) : float :=
  if is_nan x then x
  else if is_infinity x then abs x
  else if x =? 0 then 0
  else if x =? 1 then 1
  else libm_pow x 0.5.

(** [x ** 0.5], with the same range check as [x ** 2]. *)
Definition pow_half {L : Libm} (x : float) : result float :=
  let r := root x in
  if is_infinity r && negb (is_infinity x) then Raise OverflowError
  else Ok r.

(** [math.copysign(x, y)]: the magnitude of [x] with the sign bit of [y].
    A NaN keeps no sign in this model; in [__update] the first argument is
    NaN whenever the second is. *)
Definition copysign (x y : float) : float :=
  if get_sign y then - (abs x) else abs x.

(** [float("NaN")]. *)
Definition NaN : float := nan.

(** [x == 0] and [x != 0] for a float against the int literal 0. *)
Definition eq0 (x : float) : bool := x =? 0.
Definition ne0 (x : float) : bool := negb (x =? 0).

(** [x > y] on two floats: false when either is NaN. *)
Definition gt (x y : float) : bool := y <? x.

End Py.

(** The literal [1e-3]: the binary64 number nearest to 1/1000. *)
Definition threshold : float := 0x1.0624dd2f1a9fcp-10.

(** ** The pen object *)

(** The six running totals that the parent class [MomentsPen] owns. *)
Record Moments : Type := mkMoments {
  area : pyval;
  momentX : pyval;
  momentY : pyval;
  momentXX : pyval;
  momentYY : pyval;
  momentXY : pyval
}.

(** The nine attributes that [StatisticsPen] adds. *)
Record Stats : Type := mkStats {
  meanX : pyval;
  meanY : pyval;
  varianceX : pyval;
  varianceY : pyval;
  stddevX : pyval;
  stddevY : pyval;
  covariance : pyval;
  correlation : pyval;
  slant : pyval
}.

Record StatisticsPen : Type := mkPen {
  moments : Moments;
  stats : Stats
}.

(** ** Methods as state transformers that may raise

    A method takes the pen and returns the pen as it left it, with [Ok] or
    the exception raised: attributes assigned before a [raise] stay
    assigned. *)
Definition M (A : Type) : Type := StatisticsPen -> StatisticsPen * result A.

Definition ret {A} (a : A) : M A := fun self => (self, Ok a).

Definition bind {A B} (c : M A) (k : A -> M B) : M B :=
  fun self =>
    match c self with
    | (self', Ok a) => k a self'
    | (self', Raise e) => (self', Raise e)
    end.

(** An expression that may raise, evaluated inside a method. *)
Definition lift {A} (r : result A) : M A := fun self => (self, r).

(** Reading an attribute of the parent. *)
Definition attr (f : Moments -> pyval) : M pyval :=
  fun self => (self, Ok (f (moments self))).

(** Assigning an attribute of [StatisticsPen]. *)
Definition assign (upd : Stats -> Stats) : M unit :=
  fun self => (mkPen (moments self) (upd (stats self)), Ok tt).

Notation "x <- c ;; k" := (bind c (fun x => k))
  (at level 61, c at next level, right associativity).
Notation "c ;; k" := (bind c (fun _ => k))
  (at level 61, right associativity).

Definition set_meanX v s := mkStats v (meanY s) (varianceX s) (varianceY s)
  (stddevX s) (stddevY s) (covariance s) (correlation s) (slant s).
Definition set_meanY v s := mkStats (meanX s) v (varianceX s) (varianceY s)
  (stddevX s) (stddevY s) (covariance s) (correlation s) (slant s).
Definition set_varianceX v s := mkStats (meanX s) (meanY s) v (varianceY s)
  (stddevX s) (stddevY s) (covariance s) (correlation s) (slant s).
Definition set_varianceY v s := mkStats (meanX s) (meanY s) (varianceX s) v
  (stddevX s) (stddevY s) (covariance s) (correlation s) (slant s).
Definition set_stddevX v s := mkStats (meanX s) (meanY s) (varianceX s)
  (varianceY s) v (stddevY s) (covariance s) (correlation s) (slant s).
Definition set_stddevY v s := mkStats (meanX s) (meanY s) (varianceX s)
  (varianceY s) (stddevX s) v (covariance s) (correlation s) (slant s).
Definition set_covariance v s := mkStats (meanX s) (meanY s) (varianceX s)
  (varianceY s) (stddevX s) (stddevY s) v (correlation s) (slant s).
Definition set_correlation v s := mkStats (meanX s) (meanY s) (varianceX s)
  (varianceY s) (stddevX s) (stddevY s) (covariance s) v (slant s).
Definition set_slant v s := mkStats (meanX s) (meanY s) (varianceX s)
  (varianceY s) (stddevX s) (stddevY s) (covariance s) (correlation s) v.

(** ** [StatisticsPen.__zero] (lines 29-38) *)
Definition __zero : M unit :=
  assign (set_meanX (PyInt 0)) ;;
  assign (set_meanY (PyInt 0)) ;;
  assign (set_varianceX (PyInt 0)) ;;
  assign (set_varianceY (PyInt 0)) ;;
  assign (set_stddevX (PyInt 0)) ;;
  assign (set_stddevY (PyInt 0)) ;;
  assign (set_covariance (PyInt 0)) ;;
  assign (set_correlation (PyInt 0)) ;;
  assign (set_slant (PyInt 0)).

(** ** [StatisticsPen.__update] (lines 40-71)

    Every value computed after the divisions is a float, since [/] always
    returns one: the intermediate arithmetic is on [float]. *)

(** The value of [math.copysign(abs(v) ** 0.5, v)] (lines 56-57). *)
Definition signed_sqrt {L : Libm} (v : float) : float :=
  Py.copysign (Py.root (abs v)) v.

(** The local [correlation] before it is stored (lines 64-67). *)
Definition correlation_pre (stddevX stddevY covariance : float) : result float :=
  if Py.eq0 (stddevX * stddevY) then Ok Py.NaN
  else Py.float_truediv covariance (stddevX * stddevY).

(** The local [slant] before it is stored (line 70). *)
Definition slant_pre (covariance varianceY : float) : result float :=
  if Py.ne0 varianceY then Py.float_truediv covariance varianceY
  else Ok Py.NaN.

(** [v if abs(v) > 1e-3 else 0] (lines 68 and 71). *)
Definition snap (v : float) : pyval :=
  if Py.gt (abs v) threshold then PyFloat v else PyInt 0.

Definition __update {L : Libm} : M unit :=
  area <- attr area ;;                                       (* line 42 *)
  if negb (Py.truthy area) then __zero                       (* 43-45 *)
  else
    mX <- attr momentX ;;
    meanX <- lift (Py.truediv mX area) ;;                    (* 49 *)
    assign (set_meanX (PyFloat meanX)) ;;
    mY <- attr momentY ;;
    meanY <- lift (Py.truediv mY area) ;;                    (* 50 *)
    assign (set_meanY (PyFloat meanY)) ;;
    mXX <- attr momentXX ;;
    qXX <- lift (Py.truediv mXX area) ;;                     (* 53 *)
    sqX <- lift (Py.pow2 meanX) ;;
    let varianceX := qXX - sqX in
    assign (set_varianceX (PyFloat varianceX)) ;;
    mYY <- attr momentYY ;;
    qYY <- lift (Py.truediv mYY area) ;;                     (* 54 *)
    sqY <- lift (Py.pow2 meanY) ;;
    let varianceY := qYY - sqY in
    assign (set_varianceY (PyFloat varianceY)) ;;
    rX <- lift (Py.pow_half (abs varianceX)) ;;              (* 56 *)
    let stddevX := Py.copysign rX varianceX in
    assign (set_stddevX (PyFloat stddevX)) ;;
    rY <- lift (Py.pow_half (abs varianceY)) ;;              (* 57 *)
    let stddevY := Py.copysign rY varianceY in
    assign (set_stddevY (PyFloat stddevY)) ;;
    mXY <- attr momentXY ;;
    qXY <- lift (Py.truediv mXY area) ;;                     (* 60 *)
    let covariance := qXY - meanX * meanY in
    assign (set_covariance (PyFloat covariance)) ;;
    correlation <- lift (correlation_pre stddevX stddevY covariance) ;;
                                                             (* 64-67 *)
    assign (set_correlation (snap correlation)) ;;           (* 68 *)
    slant <- lift (slant_pre covariance varianceY) ;;        (* 70 *)
    assign (set_slant (snap slant)).                         (* 71 *)

Definition zero_stats : Stats :=
  mkStats (PyInt 0) (PyInt 0) (PyInt 0) (PyInt 0) (PyInt 0)
          (PyInt 0) (PyInt 0) (PyInt 0) (PyInt 0).

(** [StatisticsPen.__init__] (lines 21-23): the parent's constructor has set
    the totals; [__zero] then creates the nine statistics (what stands in
    their place before is overwritten). *)
Definition __init__ (m : Moments) : StatisticsPen :=
  fst (__zero (mkPen m zero_stats)).

(** ** The pen in use: commands and [_closePath] *)

Definition point : Type := (pyval * pyval)%type.

(** The path commands a pen receives. *)
Inductive command : Type :=
  | MoveTo (p : point)
  | LineTo (p : point)
  | QuadTo (c p : point)
  | CurveTo (c1 c2 p : point)
  | ClosePath.

(** The parent class. [MomentsPen] (over [BasePen]) is not among the sources
    at hand: it is a parameter. Its state is the six totals together with
    what it keeps for itself (current point, start point), of some type [B];
    its methods read and write that state only, and may raise.
    [parent_draw] is the inherited handling of a drawing command, and
    [parent_closePath] is [MomentsPen._closePath] with the bookkeeping that
    [BasePen.closePath] does around it. *)
Record Parent (B : Type) : Type := mkParent {
  parent_draw : command -> B * Moments -> (B * Moments) * result unit;
  parent_closePath : B * Moments -> (B * Moments) * result unit
}.
Arguments parent_draw {B} _ _ _.
Arguments parent_closePath {B} _ _.

(** [StatisticsPen._closePath] (lines 25-27): the parent's close handling,
    then [__update]. *)
Definition _closePath {L : Libm} {B} (P : Parent B) (o : B * StatisticsPen)
  : (B * StatisticsPen) * result unit :=
  let (b, self) := o in
  match parent_closePath P (b, moments self) with
  | ((b', m'), Raise e) => ((b', mkPen m' (stats self)), Raise e)
  | ((b', m'), Ok _) =>
      let (self', r) := __update (mkPen m' (stats self)) in ((b', self'), r)
  end.

(** One command on a [StatisticsPen]: only the close is overridden. *)
Definition handle {L : Libm} {B} (P : Parent B) (c : command) (o : B * StatisticsPen)
  : (B * StatisticsPen) * result unit :=
  match c with
  | ClosePath => _closePath P o
  | _ =>
      let (b, self) := o in
      match parent_draw P c (b, moments self) with
      | ((b', m'), r) => ((b', mkPen m' (stats self)), r)
      end
  end.

(** A command sequence, up to the first exception. *)
Fixpoint run {L : Libm} {B} (P : Parent B) (cs : list command) (o : B * StatisticsPen)
  : (B * StatisticsPen) * result unit :=
  match cs with
  | [] => (o, Ok tt)
  | c :: cs' =>
      match handle P c o with
      | (o', Ok _) => run P cs' o'
      | (o', Raise e) => (o', Raise e)
      end
  end.

(** The same commands on the parent alone. *)
Definition parent_handle {B} (P : Parent B) (c : command) (a : B * Moments)
  : (B * Moments) * result unit :=
  match c with
  | ClosePath => parent_closePath P a
  | _ => parent_draw P c a
  end.

Fixpoint parent_run {B} (P : Parent B) (cs : list command) (a : B * Moments)
  : (B * Moments) * result unit :=
  match cs with
  | [] => (a, Ok tt)
  | c :: cs' =>
      match parent_handle P c a with
      | (a', Ok _) => parent_run P cs' a'
      | (a', Raise e) => (a', Raise e)
      end
  end.

(** ** Notions used in the statements *)

(** A stored value that is a float NaN. *)
Definition is_NaN (v : pyval) : bool :=
  match v with
  | PyInt _ => false
  | PyFloat f => is_nan f
  end.

(** Neither the stored correlation nor the stored slant is NaN. *)
Definition clean (self : StatisticsPen) : Prop :=
  is_NaN (correlation (stats self)) = false /\
  is_NaN (slant (stats self)) = false.

(** The sign bit of a binary64 number, as [SpecFloat] represents it (a NaN
    keeps none). *)
Definition sign_bit (s : spec_float) : bool :=
  match s with
  | S754_zero b | S754_infinity b | S754_finite b _ _ => b
  | S754_nan => false
  end.

(** The values of the guarded divisions of lines 64-67 and 70. *)
Definition correlation_value (stddevX stddevY covariance : float) : float :=
  if stddevX * stddevY =? 0 then Py.NaN
  else covariance / (stddevX * stddevY).

Definition slant_value (covariance varianceY : float) : float :=
  if varianceY =? 0 then Py.NaN else covariance / varianceY.

(** The statistics a completed recomputation stores, from the values of
    the means, variances and covariance. *)
Definition derived {L : Libm}
           (meanX meanY varianceX varianceY covariance : float) : Stats :=
  let stddevX := signed_sqrt varianceX in
  let stddevY := signed_sqrt varianceY in
  mkStats (PyFloat meanX) (PyFloat meanY)
          (PyFloat varianceX) (PyFloat varianceY)
          (PyFloat stddevX) (PyFloat stddevY)
          (PyFloat covariance)
          (snap (correlation_value stddevX stddevY covariance))
          (snap (slant_value covariance varianceY)).

(** The locals [correlation] and [slant] before snapping, read back from the
    attributes stored beside them (each local is stored as it is computed:
    [self.stddevX = stddevX = ...]). *)
Definition pre_snap_values (st : Stats) : option (float * float) :=
  match stddevX st, stddevY st, covariance st, varianceY st with
  | PyFloat sx, PyFloat sy, PyFloat cov, PyFloat vy =>
      match correlation_pre sx sy cov, slant_pre cov vy with
      | Ok c, Ok s => Some (c, s)
      | _, _ => None
      end
  | _, _, _, _ => None
  end.

(** The statistics as a function of the totals alone: what a recomputation
    stores on a new pen that holds these totals. *)
Definition stats_of_totals {L : Libm} (m : Moments) : Stats :=
  stats (fst (__update (mkPen m zero_stats))).

(** ** A sample C library

    Where the model is evaluated on a concrete input (in examples, witnesses
    and counterexamples) the C library is [rounded]: its [pow] is correctly
    rounded at the exponents 2 and 0.5, that is the binary64 product and the
    binary64 square root. On a finite base whose sign bit is clear the
    square root is a finite number, and it is the answer: the test in
    [rounded_pow] is there to spare the proof of that. *)
Definition rounded_pow (x y : float) : float :=
  if y =? 2 then x * x
  else
    let r := sqrt x in
    if is_nan r || is_infinity r then x else r.

#[global, refine] Instance rounded : Libm := {| libm_pow := rounded_pow |}.
Proof.
  - intros x. unfold rounded_pow. change (2 =? 2) with true. cbv iota.
    f_equal. apply Prim2SF_inj. rewrite !mul_spec, !abs_spec.
    destruct (Prim2SF x) as [[|]|[|]| |[|] m e]; reflexivity.
  - intros x Hx. unfold rounded_pow. change (0.5 =? 2) with false. cbv iota zeta.
    destruct (is_nan (sqrt (abs x)) || is_infinity (sqrt (abs x))) eqn:E.
    + clear E. unfold is_nan in *. rewrite eqb_spec in *. rewrite abs_spec.
      unfold SFeqb in *.
      destruct (Prim2SF x) as [s|s| |s m e]; simpl in *;
        try reflexivity; try discriminate.
      rewrite Z.compare_refl, Pos.compare_cont_refl. reflexivity.
    + now apply orb_false_elim in E.
  - intros x Hx. unfold rounded_pow. change (0.5 =? 2) with false. cbv iota zeta.
    destruct (is_nan (sqrt (abs x)) || is_infinity (sqrt (abs x))) eqn:E.
    + unfold is_infinity in *.
      replace (abs (abs x)) with (abs x); [exact Hx|].
      apply Prim2SF_inj. rewrite !abs_spec.
      destruct (Prim2SF x); reflexivity.
    + now apply orb_false_elim in E.
Defined.

(** ** Sample pens *)

Definition totals (a mx my mxx myy mxy : float) : Moments :=
  mkMoments (PyFloat a) (PyFloat mx) (PyFloat my)
            (PyFloat mxx) (PyFloat myy) (PyFloat mxy).

(** The totals of a pen on which nothing was drawn: the parent's constructor
    leaves the int 0 in each. *)
Definition no_totals : Moments :=
  mkMoments (PyInt 0) (PyInt 0) (PyInt 0) (PyInt 0) (PyInt 0) (PyInt 0).

Definition pen_blank : StatisticsPen := __init__ no_totals.

(** The totals of the unit square. *)
Definition pen_square : StatisticsPen :=
  mkPen (totals 1 0.5 0.5 0x1.5555555555555p-2 0x1.5555555555555p-2 0.25)
        zero_stats.

(** A pen that holds the statistics of the unit square and whose area has
    come back to -0.0. *)
Definition pen_cancelled : StatisticsPen :=
  mkPen (totals (-0) 0.5 0.5 1 1 0.25) (stats (fst (__update pen_square))).

(** Unit area, unit second moments, cross moment 0.5. *)
Definition pen_sheared : StatisticsPen :=
  mkPen (totals 1 0 0 1 1 0.5) zero_stats.

(** Unit area, unit second moments, cross moment exactly the literal 1e-3. *)
Definition pen_boundary : StatisticsPen :=
  mkPen (totals 1 0 0 1 1 threshold) zero_stats.

(** Nonzero area, [varianceX = 1], [varianceY = 0]. *)
Definition pen_flat : StatisticsPen :=
  mkPen (totals 1 0 0 1 0 0) zero_stats.

(** [meanX = 2**600], whose square is out of the binary64 range. *)
Definition pen_far : StatisticsPen :=
  mkPen (totals 1 0x1p600 0 1 1 0.5) zero_stats.

(** [varianceX = 2] and [varianceY = -3]. *)
Definition pen_signed : StatisticsPen :=
  mkPen (totals 1 0 0 2 (-3) 0) zero_stats.

(** A parent that replays given totals: its private state is the list of
    the totals still to come, and each [LineTo] stands for the drawing of one
    whole contour, installing the totals reached after it. Its close handling
    finds the contour closed and adds nothing. *)
Definition replay_parent : Parent (list Moments) :=
  mkParent (list Moments)
    (fun c a =>
       match c, fst a with
       | LineTo _, m :: rest => ((rest, m), Ok tt)
       | _, _ => (a, Ok tt)
       end)
    (fun a => (a, Ok tt)).

Definition origin : point := (PyInt 0, PyInt 0).

(** One contour: a move, the drawing, the close. *)
Definition contour : list command := [MoveTo origin; LineTo origin; ClosePath].

(** A new pen that draws the unit square and then a second contour that
    brings the totals to those of [pen_sheared]. *)
Definition square_then_sheared : (list Moments * StatisticsPen) * result unit :=
  run replay_parent (contour ++ contour)
      ([moments pen_square; moments pen_sheared], pen_blank).

(** A new pen that draws the unit square and then a second contour that
    brings the totals to those of [pen_far]. *)
Definition square_then_far : (list Moments * StatisticsPen) * result unit :=
  run replay_parent (contour ++ contour)
      ([moments pen_square; moments pen_far], pen_blank).

(** A new pen that reaches the totals of [pen_far] with its first contour. *)
Definition far_at_once : (list Moments * StatisticsPen) * result unit :=
  run replay_parent contour ([moments pen_far], pen_blank).

(** ** Notions used in the further properties *)

(** The totals with the roles of the two axes exchanged. *)
Definition swap_axes (m : Moments) : Moments :=
  mkMoments (area m) (momentY m) (momentX m)
            (momentYY m) (momentXX m) (momentXY m).

(** A finite float whose square is out of range: where [x ** 2] raises. *)
Definition square_overflows (x : float) : bool :=
  is_infinity (x * x) && negb (is_infinity x).

(** What a recomputation does on a nonzero area once the five divisions by
    the area have the values [mX], [mY], [qXX], [qYY], [qXY]: from there on
    only the two squares can raise. *)
Definition from_quotients {L : Libm}
           (mX mY qXX qYY qXY : float) (m : Moments) (st : Stats)
  : StatisticsPen * result unit :=
  let st1 := set_meanY (PyFloat mY) (set_meanX (PyFloat mX) st) in
  match Py.pow2 mX with
  | Raise e => (mkPen m st1, Raise e)
  | Ok sqX =>
      match Py.pow2 mY with
      | Raise e => (mkPen m (set_varianceX (PyFloat (qXX - sqX)) st1), Raise e)
      | Ok sqY =>
          (mkPen m (derived mX mY (qXX - sqX) (qYY - sqY) (qXY - mX * mY)),
           Ok tt)
      end
  end.

Definition is_close (c : command) : bool :=
  match c with
  | ClosePath => true
  | _ => false
  end.

(** No [ClosePath] among the commands. *)
Definition draws_only (cs : list command) : bool :=
  forallb (fun c => negb (is_close c)) cs.

(** ** The driver [_test] (lines 74-122)

    [_test] measures each glyph of a list on a new pen, prints the fifteen
    attributes of the pen and five figures for the whole list. What it
    prints is kept as a list of lines, each with the values handed to
    [print] or to the [%] formatting; the text a number is formatted to is
    not modelled, and [str] of an int is taken to succeed. *)

(** Python arithmetic the driver uses beside [/]. *)
Module PyNum.

(** [abs(v)]. *)
Definition absolute (v : pyval) : pyval :=
  match v with
  | PyInt z => PyInt (Z.abs z)
  | PyFloat f => PyFloat (abs f)
  end.

(** A binary operator that stays in the ints on two ints and otherwise
    converts both operands to floats (left operand, then right; a
    conversion raises OverflowError on an int out of range). The float
    operation itself does not raise: out of range it gives an infinity. *)
Definition binary (on_int : Z -> Z -> Z) (on_float : float -> float -> float)
           (x y : pyval) : result pyval :=
  match x, y with
  | PyInt a, PyInt b => Ok (PyInt (on_int a b))
  | _, _ =>
      match Py.as_float x with
      | Raise e => Raise e
      | Ok a =>
          match Py.as_float y with
          | Raise e => Raise e
          | Ok b => Ok (PyFloat (on_float a b))
          end
      end
  end.

(** [x + y] and [x * y]. *)
Definition add : pyval -> pyval -> result pyval := binary Z.add PrimFloat.add.
Definition mul : pyval -> pyval -> result pyval := binary Z.mul PrimFloat.mul.

(** The number that ["%g" % v] formats: [v] as a float. *)
Definition percent_g (v : pyval) : result float := Py.as_float v.

End PyNum.

(** The attribute names of lines 93-107. *)
Inductive item : Type :=
  | item_area | item_momentX | item_momentY
  | item_momentXX | item_momentYY | item_momentXY
  | item_meanX | item_meanY | item_varianceX | item_varianceY
  | item_stddevX | item_stddevY
  | item_covariance | item_correlation | item_slant.

Definition items : list item :=
  [item_area; item_momentX; item_momentY;
   item_momentXX; item_momentYY; item_momentXY;
   item_meanX; item_meanY; item_varianceX; item_varianceY;
   item_stddevX; item_stddevY;
   item_covariance; item_correlation; item_slant].

Definition getattr (pen : StatisticsPen) (i : item) : pyval :=
  match i with
  | item_area => area (moments pen)
  | item_momentX => momentX (moments pen)
  | item_momentY => momentY (moments pen)
  | item_momentXX => momentXX (moments pen)
  | item_momentYY => momentYY (moments pen)
  | item_momentXY => momentXY (moments pen)
  | item_meanX => meanX (stats pen)
  | item_meanY => meanY (stats pen)
  | item_varianceX => varianceX (stats pen)
  | item_varianceY => varianceY (stats pen)
  | item_stddevX => stddevX (stats pen)
  | item_stddevY => stddevY (stats pen)
  | item_covariance => covariance (stats pen)
  | item_correlation => correlation (stats pen)
  | item_slant => slant (stats pen)
  end.

(** The five figures of lines 118-122. *)
Inductive figure : Type :=
  | weight | weight_perceptual | width_figure | slant_figure
  | slant_perceptual.

(** The five running sums of lines 80-84. *)
Record sums : Type := mkSums {
  wght_sum : pyval;
  wght_sum_perceptual : pyval;
  wdth_sum : pyval;
  slnt_sum : pyval;
  slnt_sum_perceptual : pyval
}.

Definition no_sums : sums :=
  mkSums (PyInt 0) (PyInt 0) (PyInt 0) (PyInt 0) (PyInt 0).

Section Driver.

(** What [_test] is given and what it calls outside this module: glyph
    names and glyphs; [glyphset[name]], a KeyError on an absent name;
    [glyph.width]; the parent class and the state [MomentsPen.__init__]
    leaves; and [glyph.draw] through a [TransformPen] that scales by a
    factor, as the commands that reach the pen. *)
Context {L : Libm} {Name Glyph B : Type}.
Variable glyphset : Name -> option Glyph.
Variable width : Glyph -> pyval.
Variable P : Parent B.
Variable start : B * Moments.
Variable outline : Glyph -> float -> list command.

(** A printed line. *)
Inductive line : Type :=
  | UpemLine (upem : pyval)              (* print("upem", upem) *)
  | BlankLine                            (* print() *)
  | GlyphLine (glyph_name : Name)        (* print("glyph:", glyph_name) *)
  | ItemLine (i : item) (v : float)      (* print("%s: %g" % (item, v)) *)
  | FigureLine (f : figure) (v : float). (* lines 118-122 *)

Inductive failure : Type :=
  | Arithmetic (e : exn)
  | KeyError (glyph_name : Name).

Inductive outcome (A : Type) : Type :=
  | Done (a : A)
  | Failed (f : failure).
Arguments Done {A} a.
Arguments Failed {A} f.

(** A part of the driver: the lines it prints, and its value or the
    exception that ends it. *)
Definition D (A : Type) : Type := (list line * outcome A)%type.

Definition dret {A} (a : A) : D A := ([], Done a).

Definition dbind {A C} (c : D A) (k : A -> D C) : D C :=
  match c with
  | (out, Done a) => let (out', r) := k a in (out ++ out', r)
  | (out, Failed f) => (out, Failed f)
  end.

Definition print (l : line) : D unit := ([l], Done tt).

Definition arith {A} (r : result A) : D A :=
  match r with
  | Ok a => ([], Done a)
  | Raise e => ([], Failed (Arithmetic e))
  end.

Definition lookup (glyph_name : Name) : D Glyph :=
  match glyphset glyph_name with
  | Some glyph => ([], Done glyph)
  | None => ([], Failed (KeyError glyph_name))
  end.

(** [glyph.draw(transformer)]: the commands on the pen, up to the first
    exception. *)
Definition draw (cs : list command) (o : B * StatisticsPen) : D StatisticsPen :=
  match run P cs o with
  | (o', Ok _) => ([], Done (snd o'))
  | (_, Raise e) => ([], Failed (Arithmetic e))
  end.

Declare Scope driver_scope.
Notation "x <- c ;; k" := (dbind c (fun x => k))
  (at level 61, c at next level, right associativity) : driver_scope.
Notation "c ;; k" := (dbind c (fun _ => k))
  (at level 61, right associativity) : driver_scope.
Local Open Scope driver_scope.

(** Lines 92-109. *)
Fixpoint print_items (pen : StatisticsPen) (l : list item) : D unit :=
  match l with
  | [] => dret tt
  | i :: l' =>
      v <- arith (PyNum.percent_g (getattr pen i)) ;;
      print (ItemLine i v) ;;
      print_items pen l'
  end.

(** The body of the loop (lines 86-115) on one glyph name. *)
Definition measure (upem : pyval) (glyph_name : Name) (s : sums) : D sums :=
  print BlankLine ;;                                           (* 86 *)
  print (GlyphLine glyph_name) ;;                              (* 87 *)
  glyph <- lookup glyph_name ;;                                (* 88 *)
  let pen := __init__ (snd start) in                           (* 89 *)
  factor <- arith (Py.truediv (PyFloat 1) upem) ;;             (* 90 *)
  pen <- draw (outline glyph factor) (fst start, pen) ;;       (* 91 *)
  print_items pen items ;;                                     (* 92-109 *)
  wght <- arith (PyNum.add (wght_sum s)
                   (PyNum.absolute (area (moments pen)))) ;;   (* 111 *)
  p <- arith (PyNum.mul (PyNum.absolute (area (moments pen)))
                (width glyph)) ;;
  wght_p <- arith (PyNum.add (wght_sum_perceptual s) p) ;;     (* 112 *)
  wdth <- arith (PyNum.add (wdth_sum s) (width glyph)) ;;      (* 113 *)
  slnt <- arith (PyNum.add (slnt_sum s) (slant (stats pen))) ;; (* 114 *)
  q <- arith (PyNum.mul (slant (stats pen)) (width glyph)) ;;
  slnt_p <- arith (PyNum.add (slnt_sum_perceptual s) q) ;;     (* 115 *)
  dret (mkSums wght wght_p wdth slnt slnt_p).

(** The loop of line 85. *)
Fixpoint measure_all (upem : pyval) (glyphs : list Name) (s : sums) : D sums :=
  match glyphs with
  | [] => dret s
  | glyph_name :: rest =>
      s' <- measure upem glyph_name s ;;
      measure_all upem rest s'
  end.

(** Lines 117-122. *)
Definition report (upem : pyval) (n : Z) (s : sums) : D unit :=
  print BlankLine ;;                                           (* 117 *)
  w <- arith (PyNum.mul (wght_sum s) upem) ;;
  v <- arith (Py.truediv w (wdth_sum s)) ;;
  print (FigureLine weight v) ;;                               (* 118 *)
  v <- arith (Py.truediv (wght_sum_perceptual s) (wdth_sum s)) ;;
  print (FigureLine weight_perceptual v) ;;                    (* 119 *)
  w <- arith (Py.truediv (wdth_sum s) upem) ;;
  v <- arith (Py.truediv (PyFloat w) (PyInt n)) ;;
  print (FigureLine width_figure v) ;;                         (* 120 *)
  v <- arith (Py.truediv (slnt_sum s) (PyInt n)) ;;
  print (FigureLine slant_figure v) ;;                         (* 121 *)
  v <- arith (Py.truediv (slnt_sum_perceptual s) (wdth_sum s)) ;;
  print (FigureLine slant_perceptual v).                       (* 122 *)

Definition _test (upem : pyval) (glyphs : list Name) : D unit :=
  print (UpemLine upem) ;;                                     (* 78 *)
  s <- measure_all upem glyphs no_sums ;;                      (* 80-115 *)
  report upem (Z.of_nat (length glyphs)) s.

End Driver.

Arguments Done {Name A} a.
Arguments Failed {Name A} f.

(** ** Sample runs of the driver

    Glyph names are numbers; a glyph is its advance width; name 0 is the
    only glyph of the set. Every glyph draws the one contour that brings the
    accumulator to the totals of the unit square. *)
Definition one_glyph (w : pyval) (n : nat) : option pyval :=
  match n with
  | O => Some w
  | S _ => None
  end.

Definition test_square (w upem : pyval) (glyphs : list nat)
  : list (@line nat) * @outcome nat unit :=
  _test (one_glyph w) (fun glyph => glyph) replay_parent
        ([moments pen_square], no_totals) (fun _ _ => contour) upem glyphs.

Ltac unfold_update :=
  cbv beta iota zeta delta [__update __zero bind attr lift assign].

Ltac split_results :=
  repeat match goal with
         | |- context [match ?r with Ok _ => _ | Raise _ => _ end] =>
             destruct r; simpl
         end.

(** ** Facts about binary64 arithmetic *)

Example threshold_is_one_thousandth : threshold = 1 / 1000.
Proof. reflexivity. Qed.

Lemma Prim2SF_zero : Prim2SF 0 = S754_zero false.
Proof. reflexivity. Qed.

Lemma Prim2SF_nan : Prim2SF nan = S754_nan.
Proof. reflexivity. Qed.

Lemma is_nan_spec (x : float) :
  is_nan x = match Prim2SF x with S754_nan => true | _ => false end.
Proof.
  unfold is_nan. rewrite eqb_spec. unfold SFeqb.
  destruct (Prim2SF x) as [s|s| |s m e]; simpl; try reflexivity.
  - destruct s; reflexivity.
  - destruct s; rewrite Z.compare_refl, Pos.compare_cont_refl; reflexivity.
Qed.

Lemma nan_is_nan (x : float) : is_nan x = true -> x = nan.
Proof.
  rewrite is_nan_spec. intros H. apply Prim2SF_inj. rewrite Prim2SF_nan.
  destruct (Prim2SF x); try discriminate. reflexivity.
Qed.

Lemma eqb0_spec (x : float) :
  (x =? 0) = match Prim2SF x with S754_zero _ => true | _ => false end.
Proof.
  rewrite eqb_spec, Prim2SF_zero. unfold SFeqb.
  destruct (Prim2SF x) as [s|s| |s m e]; simpl; try reflexivity;
    destruct s; reflexivity.
Qed.

Lemma get_sign_spec (x : float) : get_sign x = sign_bit (Prim2SF x).
Proof.
  unfold get_sign, is_zero. rewrite eqb0_spec.
  destruct (Prim2SF x) as [s|s| |s m e] eqn:E.
  - rewrite ltb_spec, div_spec, E. destruct s; reflexivity.
  - rewrite ltb_spec, E. destruct s; reflexivity.
  - rewrite ltb_spec, E. reflexivity.
  - rewrite ltb_spec, E. destruct s; reflexivity.
Qed.

Lemma SFcompare_antisym (x y : spec_float) :
  SFcompare y x = option_map CompOpp (SFcompare x y).
Proof.
  destruct x as [s1|s1| |s1 m1 e1], y as [s2|s2| |s2 m2 e2]; simpl;
    try reflexivity; try (destruct s1; reflexivity);
    try (destruct s2; reflexivity);
    try (destruct s1, s2; reflexivity).
  pose proof (Pos.compare_cont_antisym m1 m2 Eq) as A. simpl in A.
  destruct s1, s2; simpl; try reflexivity;
    rewrite (Z.compare_antisym e1 e2);
    destruct (e1 ?= e2)%Z; simpl; try reflexivity;
    rewrite <- A; destruct (Pos.compare_cont Eq m1 m2); reflexivity.
Qed.

(** [x <= y] excludes [y < x], also when a NaN is involved. *)
Lemma leb_not_gt (x y : float) : (x <=? y) = true -> (y <? x) = false.
Proof.
  rewrite leb_spec, ltb_spec. unfold SFleb, SFltb.
  rewrite (SFcompare_antisym (Prim2SF x) (Prim2SF y)).
  destruct (SFcompare (Prim2SF x) (Prim2SF y)) as [[ | | ]|]; simpl;
    intros H; try reflexivity; discriminate.
Qed.

(** A comparison that holds has no NaN on its right. *)
Lemma ltb_right_not_nan (x y : float) : (x <? y) = true -> is_nan y = false.
Proof.
  rewrite ltb_spec, is_nan_spec. unfold SFltb.
  destruct (Prim2SF x), (Prim2SF y); simpl; intros H;
    try reflexivity; discriminate.
Qed.

Lemma abs_not_nan (x : float) : is_nan (abs x) = is_nan x.
Proof.
  rewrite !is_nan_spec, abs_spec. destruct (Prim2SF x); reflexivity.
Qed.

Lemma abs_idem (x : float) : abs (abs x) = abs x.
Proof.
  apply Prim2SF_inj. rewrite !abs_spec. destruct (Prim2SF x); reflexivity.
Qed.

Lemma abs_opp (x : float) : abs (- x) = abs x.
Proof.
  apply Prim2SF_inj. rewrite !abs_spec, opp_spec.
  destruct (Prim2SF x); reflexivity.
Qed.

Lemma div_nan_r (x y : float) : is_nan y = true -> x / y = nan.
Proof.
  intros H. apply nan_is_nan in H. subst y. apply Prim2SF_inj.
  rewrite div_spec, Prim2SF_nan. unfold SF64div, SFdiv.
  destruct (Prim2SF x); reflexivity.
Qed.

(** A product with a zero factor is a zero or NaN. *)
Lemma mul_zero_r (x y : float) :
  (y =? 0) = true -> (x * y =? 0) = true \/ is_nan (x * y) = true.
Proof.
  rewrite !eqb0_spec, is_nan_spec, mul_spec. unfold SF64mul, SFmul.
  destruct (Prim2SF y); try discriminate. intros _.
  destruct (Prim2SF x); auto.
Qed.

Lemma opp_is_nan (x : float) : is_nan (- x) = is_nan x.
Proof.
  rewrite !is_nan_spec, opp_spec. destruct (Prim2SF x); reflexivity.
Qed.

Lemma positive_spec (v : float) :
  (0 <? v) = true -> is_nan v = false /\ get_sign v = false.
Proof.
  rewrite ltb_spec, is_nan_spec, get_sign_spec, Prim2SF_zero. unfold SFltb.
  destruct (Prim2SF v) as [s|s| |s m e]; simpl; try discriminate;
    destruct s; try discriminate; auto.
Qed.

Lemma negative_spec (v : float) :
  (v <? 0) = true -> is_nan v = false /\ get_sign v = true.
Proof.
  rewrite ltb_spec, is_nan_spec, get_sign_spec, Prim2SF_zero. unfold SFltb.
  destruct (Prim2SF v) as [s|s| |s m e]; simpl; try discriminate;
    destruct s; try discriminate; auto.
Qed.


(** ** Python's [**] at the exponents 2 and 0.5 *)

Lemma is_infinity_abs (x : float) : is_infinity (abs x) = is_infinity x.
Proof. unfold is_infinity. now rewrite abs_idem. Qed.

Lemma nan_not_infinity (x : float) : is_nan x = true -> is_infinity x = false.
Proof. intros H. apply nan_is_nan in H. now subst x. Qed.

Lemma zero_cases (x : float) : (x =? 0) = true -> x = 0 \/ x = -0.
Proof.
  rewrite eqb0_spec. intros H. rewrite <- (SF2Prim_Prim2SF x).
  destruct (Prim2SF x) as [[|]| | |]; try discriminate; auto.
Qed.

Lemma one_cases (x : float) : (abs x =? 1) = true -> x = 1 \/ x = -1.
Proof.
  rewrite eqb_spec, abs_spec. intros H. rewrite <- (SF2Prim_Prim2SF x).
  change (Prim2SF 1) with (S754_finite false 4503599627370496 (-52)) in H.
  destruct (Prim2SF x) as [s|s| |s m e]; try discriminate.
  unfold SFeqb, SFabs, SFcompare in H.
  destruct (e ?= -52)%Z eqn:He; try discriminate.
  apply Z.compare_eq in He. subst e.
  destruct (Pos.compare_cont Eq m 4503599627370496) eqn:Hm; try discriminate.
  apply Pos.compare_eq in Hm. subst m.
  destruct s; auto.
Qed.

Section Power.

Context {L : Libm}.

(** Where [x ** 2] raises: on a finite [x] whose rounded product with
    itself is infinite. *)
Lemma square_is_infinity (x : float) :
  is_infinity (Py.square x) && negb (is_infinity x) =
  is_infinity (x * x) && negb (is_infinity x).
Proof.
  destruct (is_infinity x) eqn:Hi; [now rewrite !andb_false_r|].
  rewrite !andb_true_r. unfold Py.square. rewrite Hi.
  destruct (is_nan x) eqn:Hn.
  - apply nan_is_nan in Hn. subst x. reflexivity.
  - destruct (x =? 0) eqn:Hz.
    + destruct (zero_cases x Hz) as [-> | ->]; reflexivity.
    + destruct (abs x =? 1) eqn:H1.
      * destruct (one_cases x H1) as [-> | ->]; reflexivity.
      * apply square_range.
Qed.

Lemma pow2_overflow (x : float) :
  Py.pow2 x =
  if square_overflows x then Raise OverflowError else Ok (Py.square x).
Proof. unfold Py.pow2, square_overflows. now rewrite square_is_infinity. Qed.

Lemma pow2_value (x r : float) : Py.pow2 x = Ok r -> r = Py.square x.
Proof.
  rewrite pow2_overflow. destruct (square_overflows x); [discriminate|].
  now intros [= <-].
Qed.

Lemma pow2_raises (x : float) (e : exn) :
  Py.pow2 x = Raise e ->
  e = OverflowError /\ is_infinity (x * x) = true /\ is_infinity x = false.
Proof.
  rewrite pow2_overflow. unfold square_overflows.
  destruct (is_infinity (x * x)) eqn:E1, (is_infinity x) eqn:E2; simpl;
    try discriminate. intros [= <-]. auto.
Qed.

(** [abs(v) ** 0.5] is NaN only for a NaN, and infinite only for an
    infinity: it raises nothing. *)
Lemma root_is_nan (v : float) : is_nan (Py.root (abs v)) = is_nan v.
Proof.
  unfold Py.root. rewrite abs_not_nan, is_infinity_abs.
  destruct (is_nan v) eqn:Hn; [now rewrite abs_not_nan|].
  destruct (is_infinity v) eqn:Hi.
  - rewrite abs_idem. destruct (is_nan (abs v)) eqn:E; [|reflexivity].
    now rewrite abs_not_nan, Hn in E.
  - destruct (abs v =? 0); [reflexivity|].
    destruct (abs v =? 1); [reflexivity|]. now apply root_number.
Qed.

Lemma root_is_infinity (v : float) :
  is_infinity (Py.root (abs v)) = is_infinity v.
Proof.
  unfold Py.root. rewrite abs_not_nan, is_infinity_abs.
  destruct (is_nan v) eqn:Hn.
  - now rewrite is_infinity_abs.
  - destruct (is_infinity v) eqn:Hi.
    + now rewrite abs_idem, is_infinity_abs.
    + destruct (abs v =? 0); [reflexivity|].
      destruct (abs v =? 1); [reflexivity|]. now apply root_range.
Qed.

Lemma pow_half_total (v : float) :
  Py.pow_half (abs v) = Ok (Py.root (abs v)).
Proof.
  unfold Py.pow_half. cbv zeta.
  rewrite root_is_infinity, is_infinity_abs.
  now destruct (is_infinity v).
Qed.

End Power.

(** ** The signed square root of lines 56-57 *)

Section SignedSqrt.

Context {L : Libm}.
Variable v : float.

Lemma abs_clears_sign (x : float) :
  is_nan x = false -> get_sign (abs x) = false /\ get_sign (- abs x) = true.
Proof.
  rewrite is_nan_spec, !get_sign_spec, opp_spec, abs_spec.
  destruct (Prim2SF x); try discriminate; auto.
Qed.

Lemma signed_sqrt_abs : abs (signed_sqrt v) = abs (Py.root (abs v)).
Proof.
  unfold signed_sqrt, Py.copysign.
  destruct (get_sign v); now rewrite ?abs_opp, abs_idem.
Qed.

Lemma signed_sqrt_is_nan : is_nan (signed_sqrt v) = is_nan v.
Proof.
  unfold signed_sqrt, Py.copysign.
  destruct (get_sign v).
  - now rewrite opp_is_nan, abs_not_nan, root_is_nan.
  - now rewrite abs_not_nan, root_is_nan.
Qed.

Lemma signed_sqrt_sign :
  is_nan v = false -> get_sign (signed_sqrt v) = get_sign v.
Proof.
  intros Hv. rewrite <- root_is_nan in Hv.
  destruct (abs_clears_sign _ Hv) as [Hp Hm].
  unfold signed_sqrt, Py.copysign. now destruct (get_sign v).
Qed.

Lemma signed_sqrt_negative :
  (v <? 0) = true ->
  is_nan (signed_sqrt v) = false /\ get_sign (signed_sqrt v) = true.
Proof.
  intros H. destruct (negative_spec v H) as [Hn Hs].
  rewrite signed_sqrt_is_nan, signed_sqrt_sign; auto.
Qed.

(** The three cases of sign(v) * |v| ** 0.5. *)
Lemma signed_sqrt_of_positive :
  (0 <? v) = true -> signed_sqrt v = abs (Py.root (abs v)).
Proof.
  intros H. destruct (positive_spec v H) as [_ Hs].
  unfold signed_sqrt, Py.copysign. now rewrite Hs.
Qed.

Lemma signed_sqrt_of_negative :
  (v <? 0) = true -> signed_sqrt v = - abs (Py.root (abs v)).
Proof.
  intros H. destruct (negative_spec v H) as [_ Hs].
  unfold signed_sqrt, Py.copysign. now rewrite Hs.
Qed.

Lemma signed_sqrt_of_zero :
  (v =? 0) = true -> (signed_sqrt v =? 0) = true.
Proof.
  intros H. destruct (zero_cases v H) as [-> | ->]; reflexivity.
Qed.

End SignedSqrt.

(** ** The snapping of lines 68 and 71 *)

Lemma snap_kept (x : float) :
  (threshold <? abs x) = true -> snap x = PyFloat x.
Proof. unfold snap, Py.gt. now intros ->. Qed.

Lemma snap_dropped (x : float) :
  (threshold <? abs x) = false -> snap x = PyInt 0.
Proof. unfold snap, Py.gt. now intros ->. Qed.

Lemma snap_small (x : float) :
  (abs x <=? threshold) = true -> snap x = PyInt 0.
Proof. intros H. apply snap_dropped, leb_not_gt, H. Qed.

Lemma snap_nan : snap Py.NaN = PyInt 0.
Proof. reflexivity. Qed.

Lemma snap_is_nan (x : float) : is_nan x = true -> snap x = PyInt 0.
Proof. intros H. apply nan_is_nan in H. now subst x. Qed.

Lemma snap_never_nan (x : float) : is_NaN (snap x) = false.
Proof.
  unfold snap, Py.gt. destruct (threshold <? abs x) eqn:E; simpl; trivial.
  apply ltb_right_not_nan in E. now rewrite abs_not_nan in E.
Qed.

(** The guarded divisions of lines 64-67 and 70 never raise. *)
Lemma correlation_pre_total (sx sy cov : float) :
  correlation_pre sx sy cov = Ok (correlation_value sx sy cov).
Proof.
  unfold correlation_pre, correlation_value, Py.eq0, Py.float_truediv.
  destruct (sx * sy =? 0); reflexivity.
Qed.

Lemma slant_pre_total (cov vy : float) :
  slant_pre cov vy = Ok (slant_value cov vy).
Proof.
  unfold slant_pre, slant_value, Py.ne0, Py.float_truediv.
  destruct (vy =? 0); reflexivity.
Qed.

(** ** What [__update] computes *)

Section Update.

Context {L : Libm}.
Variable self : StatisticsPen.

Local Abbreviation m := (moments self).

Lemma update_zero_area :
  Py.truthy (area m) = false ->
  __update self = (mkPen m zero_stats, Ok tt).
Proof.
  intros H. unfold_update. rewrite H. reflexivity.
Qed.

Lemma update_completes (mX mY qXX sqX qYY sqY qXY : float) :
  Py.truthy (area m) = true ->
  Py.truediv (momentX m) (area m) = Ok mX ->
  Py.truediv (momentY m) (area m) = Ok mY ->
  Py.truediv (momentXX m) (area m) = Ok qXX ->
  Py.pow2 mX = Ok sqX ->
  Py.truediv (momentYY m) (area m) = Ok qYY ->
  Py.pow2 mY = Ok sqY ->
  Py.truediv (momentXY m) (area m) = Ok qXY ->
  __update self =
  (mkPen m (derived mX mY (qXX - sqX) (qYY - sqY) (qXY - mX * mY)), Ok tt).
Proof.
  intros H H1 H2 H3 H4 H5 H6 H7. unfold_update.
  rewrite H. simpl. rewrite H1. simpl. rewrite H2. simpl.
  rewrite H3. simpl. rewrite H4. simpl. rewrite H5. simpl.
  rewrite H6. simpl. rewrite !pow_half_total. simpl. rewrite H7. simpl.
  rewrite correlation_pre_total, slant_pre_total. reflexivity.
Qed.

Lemma update_inversion (self' : StatisticsPen) :
  Py.truthy (area m) = true ->
  __update self = (self', Ok tt) ->
  exists mX mY qXX sqX qYY sqY qXY,
    Py.truediv (momentX m) (area m) = Ok mX /\
    Py.truediv (momentY m) (area m) = Ok mY /\
    Py.truediv (momentXX m) (area m) = Ok qXX /\
    Py.pow2 mX = Ok sqX /\
    Py.truediv (momentYY m) (area m) = Ok qYY /\
    Py.pow2 mY = Ok sqY /\
    Py.truediv (momentXY m) (area m) = Ok qXY /\
    self' =
    mkPen m (derived mX mY (qXX - sqX) (qYY - sqY) (qXY - mX * mY)).
Proof.
  intros H. unfold_update. rewrite H. simpl.
  destruct (Py.truediv (momentX m) (area m)) as [mX|] eqn:H1; simpl;
    [|discriminate].
  destruct (Py.truediv (momentY m) (area m)) as [mY|] eqn:H2; simpl;
    [|discriminate].
  destruct (Py.truediv (momentXX m) (area m)) as [qXX|] eqn:H3; simpl;
    [|discriminate].
  destruct (Py.pow2 mX) as [sqX|] eqn:H4; simpl; [|discriminate].
  destruct (Py.truediv (momentYY m) (area m)) as [qYY|] eqn:H5; simpl;
    [|discriminate].
  destruct (Py.pow2 mY) as [sqY|] eqn:H6; simpl; [|discriminate].
  rewrite !pow_half_total. simpl.
  destruct (Py.truediv (momentXY m) (area m)) as [qXY|] eqn:H7; simpl;
    [|discriminate].
  rewrite correlation_pre_total, slant_pre_total. simpl.
  intros E. injection E as <-.
  exists mX, mY, qXX, sqX, qYY, sqY, qXY. repeat split; assumption.
Qed.

End Update.

(** ** The arithmetic model on known values *)

Example int_truediv_values :
  Py.truediv (PyInt (10 ^ 30)) (PyInt 3) = Ok 0x1.0d43b7bc05df1p+98 /\
  Py.truediv (PyInt (2 ^ 80 + 1)) (PyInt (2 ^ 20 + 3)) = Ok 0x1.ffffa00012p+59 /\
  Py.truediv (PyInt (2 ^ 54 + 3)) (PyInt (2 ^ 54 + 6)) = Ok 0x1.fffffffffffffp-1 /\
  Py.truediv (PyInt 0) (PyInt (-1)) = Ok (-0) /\
  Py.truediv (PyInt 7) (PyFloat 2) = Ok 3.5.
Proof. repeat split; reflexivity. Qed.

Example truediv_raises :
  Py.truediv (PyInt 1) (PyInt 0) = Raise ZeroDivisionError /\
  Py.truediv (PyFloat 1) (PyInt 0) = Raise ZeroDivisionError /\
  Py.truediv (PyFloat 1) (PyFloat (-0)) = Raise ZeroDivisionError /\
  Py.truediv (PyInt (10 ^ 400)) (PyFloat 1) = Raise OverflowError /\
  Py.truediv (PyInt (10 ^ 400)) (PyFloat 0) = Raise OverflowError /\
  Py.truediv (PyInt (10 ^ 400)) (PyInt 1) = Raise OverflowError.
Proof. repeat split; reflexivity. Qed.

Example float_of_int_values :
  Py.float_of_int (2 ^ 53 + 1) = Ok 0x1p53 /\
  Py.float_of_int (2 ^ 1024 - 2 ^ 970 - 1) = Ok 0x1.fffffffffffffp+1023 /\
  Py.float_of_int (2 ^ 1024 - 2 ^ 970) = Raise OverflowError.
Proof. repeat split; reflexivity. Qed.

(** What [**] answers whatever the C library: the special values, and the
    OverflowError of a square out of range. *)
Example pow_special_values {L : Libm} :
  Py.pow2 0x1p600 = Raise OverflowError /\
  0x1p600 * 0x1p600 = infinity /\
  Py.pow2 infinity = Ok infinity /\
  Py.pow2 neg_infinity = Ok infinity /\
  Py.pow2 nan = Ok nan /\
  Py.pow2 0 = Ok 0 /\
  Py.pow2 (-0) = Ok 0 /\
  Py.pow2 1 = Ok 1 /\
  Py.pow2 (-1) = Ok 1 /\
  Py.pow_half infinity = Ok infinity /\
  Py.pow_half nan = Ok nan /\
  Py.pow_half 0 = Ok 0 /\
  Py.pow_half 1 = Ok 1.
Proof.
  split; [now rewrite pow2_overflow|]. repeat split; reflexivity.
Qed.

(** With the sample C library, [**] is the rounded product and the rounded
    square root. *)
Example pow_values :
  Py.pow2 0x1.fffffffffffffp+511 = Ok 0x1.ffffffffffffep+1023 /\
  Py.pow2 0x1p-600 = Ok 0 /\
  Py.pow2 (-3) = Ok 9 /\
  Py.pow2 0.5 = Ok 0.25 /\
  Py.pow_half 4 = Ok 2 /\
  Py.pow_half 2 = Ok 0x1.6a09e667f3bcdp+0.
Proof. repeat split; reflexivity. Qed.

Example truthy_values :
  Py.truthy (PyInt 0) = false /\
  Py.truthy (PyFloat 0) = false /\
  Py.truthy (PyFloat (-0)) = false /\
  Py.truthy (PyFloat nan) = true /\
  Py.truthy (PyFloat 0x1p-1074) = true.
Proof. repeat split; reflexivity. Qed.

Example signed_sqrt_special_values {L : Libm} :
  signed_sqrt 1 = 1 /\
  signed_sqrt (-1) = -1 /\
  signed_sqrt 0 = 0 /\
  signed_sqrt (-0) = -0 /\
  signed_sqrt infinity = infinity /\
  signed_sqrt neg_infinity = neg_infinity /\
  signed_sqrt nan = nan.
Proof. repeat split; reflexivity. Qed.

Example signed_sqrt_values :
  signed_sqrt 4 = 2 /\
  signed_sqrt (-4) = -2 /\
  signed_sqrt (-3) = -0x1.bb67ae8584caap+0.
Proof. repeat split; reflexivity. Qed.

(** The unit square, with the sample C library: means 0.5, variances 1/12
    (as binary64 arithmetic gives it), no covariance. *)
Example unit_square_statistics :
  __update pen_square =
    (mkPen (moments pen_square)
           (mkStats (PyFloat 0.5) (PyFloat 0.5)
                    (PyFloat 0x1.5555555555554p-4) (PyFloat 0x1.5555555555554p-4)
                    (PyFloat 0x1.279a74590331cp-2) (PyFloat 0x1.279a74590331cp-2)
                    (PyFloat 0) (PyInt 0) (PyInt 0)), Ok tt).
Proof. reflexivity. Qed.

(** ** The zero-area case *)

Lemma truthy_false_zero (v : pyval) :
  Py.truthy v = false ->
  v = PyInt 0 \/ v = PyFloat 0 \/ v = PyFloat (-0).
Proof.
  destruct v as [z|f]; simpl; intros H; apply negb_false_iff in H.
  - left. apply Z.eqb_eq in H. now subst z.
  - right. rewrite eqb0_spec in H.
    rewrite <- (SF2Prim_Prim2SF f).
    destruct (Prim2SF f) as [[|]| | |]; try discriminate; auto.
Qed.

Lemma truediv_by_zero (x a : pyval) :
  Py.truthy a = false -> exists e, Py.truediv x a = Raise e.
Proof.
  intros H. apply truthy_false_zero in H.
  destruct H as [->|[->| ->]], x as [z|f]; simpl.
  - exists ZeroDivisionError. reflexivity.
  - exists ZeroDivisionError. reflexivity.
  - destruct (Py.float_of_int z) as [a|e]; [exists ZeroDivisionError|exists e];
      reflexivity.
  - exists ZeroDivisionError. reflexivity.
  - destruct (Py.float_of_int z) as [a|e]; [exists ZeroDivisionError|exists e];
      reflexivity.
  - exists ZeroDivisionError. reflexivity.
Qed.

(** ** Snapping of correlation and slant *)

Lemma derived_pre_snap {L : Libm} (mX mY vX vY cov : float) :
  let st := derived mX mY vX vY cov in
  let c := correlation_value (signed_sqrt vX) (signed_sqrt vY) cov in
  let s := slant_value cov vY in
  pre_snap_values st = Some (c, s) /\
  correlation st = snap c /\ slant st = snap s.
Proof.
  unfold derived, pre_snap_values. simpl.
  rewrite correlation_pre_total, slant_pre_total. auto.
Qed.

(** A completed recomputation on a nonzero area has pre-snap values, and
    stores their snapped versions. *)
Lemma update_pre_snap {L : Libm} (self self' : StatisticsPen) :
  Py.truthy (area (moments self)) = true ->
  __update self = (self', Ok tt) ->
  exists c s,
    pre_snap_values (stats self') = Some (c, s) /\
    correlation (stats self') = snap c /\
    slant (stats self') = snap s.
Proof.
  intros Ht Hu.
  destruct (update_inversion self self' Ht Hu)
    as (mX & mY & qXX & sqX & qYY & sqY & qXY & _ & _ & _ & _ & _ & _ & _ & ->).
  eexists _, _. apply derived_pre_snap.
Qed.

(** Pre-snap values read back after a completed recomputation are the ones
    that were snapped. *)
Lemma update_snapped {L : Libm} (self self' : StatisticsPen) (c s : float) :
  __update self = (self', Ok tt) ->
  pre_snap_values (stats self') = Some (c, s) ->
  correlation (stats self') = snap c /\ slant (stats self') = snap s.
Proof.
  intros Hu Hp. destruct (Py.truthy (area (moments self))) eqn:Ht.
  - destruct (update_pre_snap self self' Ht Hu) as (c' & s' & Hp' & Hc & Hs).
    rewrite Hp in Hp'. injection Hp' as -> ->. auto.
  - rewrite (update_zero_area self Ht) in Hu. injection Hu as <-.
    discriminate.
Qed.

(** ** The zero-spread case *)

Lemma correlation_value_zero_spread (sx sy cov : float) :
  (sy =? 0) = true -> correlation_value sx sy cov = nan.
Proof.
  intros H. unfold correlation_value.
  destruct (mul_zero_r sx sy H) as [Hz|Hn].
  - now rewrite Hz.
  - destruct (sx * sy =? 0); [reflexivity|]. now apply div_nan_r.
Qed.

(** ** Means, variances, standard deviations and covariance *)

(** When the divisions and squares of lines 49-54 have values, lines 49-57
    store them: the means are the quotients, the variances are
    [momentXX / area - meanX ** 2] and [momentYY / area - meanY ** 2],
    whatever their sign; and the recomputation goes on to line 60, from which
    only the division [momentXY / area] can raise. *)
Lemma update_first_lines {L : Libm} (self : StatisticsPen)
      (mX mY qXX sqX qYY sqY : float) :
  Py.truthy (area (moments self)) = true ->
  Py.truediv (momentX (moments self)) (area (moments self)) = Ok mX ->
  Py.truediv (momentY (moments self)) (area (moments self)) = Ok mY ->
  Py.truediv (momentXX (moments self)) (area (moments self)) = Ok qXX ->
  Py.pow2 mX = Ok sqX ->
  Py.truediv (momentYY (moments self)) (area (moments self)) = Ok qYY ->
  Py.pow2 mY = Ok sqY ->
  meanX (stats (fst (__update self))) = PyFloat mX /\
  meanY (stats (fst (__update self))) = PyFloat mY /\
  varianceX (stats (fst (__update self))) = PyFloat (qXX - sqX) /\
  varianceY (stats (fst (__update self))) = PyFloat (qYY - sqY) /\
  stddevX (stats (fst (__update self))) = PyFloat (signed_sqrt (qXX - sqX)) /\
  stddevY (stats (fst (__update self))) = PyFloat (signed_sqrt (qYY - sqY)) /\
  snd (__update self) =
    match Py.truediv (momentXY (moments self)) (area (moments self)) with
    | Ok _ => Ok tt
    | Raise e => Raise e
    end.
Proof.
  intros H H1 H2 H3 H4 H5 H6. unfold_update.
  rewrite H. simpl. rewrite H1. simpl. rewrite H2. simpl.
  rewrite H3. simpl. rewrite H4. simpl. rewrite H5. simpl.
  rewrite H6. simpl. rewrite !pow_half_total. simpl.
  destruct (Py.truediv (momentXY (moments self)) (area (moments self)));
    simpl; [rewrite correlation_pre_total, slant_pre_total; simpl|];
    repeat split; reflexivity.
Qed.

(** On float totals no division by a nonzero area raises: the only
    exception a recomputation can raise there is the OverflowError of a
    square. *)
Lemma truediv_floats (x a : float) :
  Py.truthy (PyFloat a) = true -> Py.truediv (PyFloat x) (PyFloat a) = Ok (x / a).
Proof.
  simpl. unfold Py.float_truediv. intros H. apply negb_true_iff in H.
  now rewrite H.
Qed.

Lemma update_on_floats {L : Libm} (a mx my mxx myy mxy sqX sqY : float) (st : Stats) :
  Py.truthy (PyFloat a) = true ->
  Py.pow2 (mx / a) = Ok sqX ->
  Py.pow2 (my / a) = Ok sqY ->
  __update (mkPen (totals a mx my mxx myy mxy) st) =
  (mkPen (totals a mx my mxx myy mxy)
         (derived (mx / a) (my / a) (mxx / a - sqX) (myy / a - sqY)
                  (mxy / a - (mx / a) * (my / a))), Ok tt).
Proof.
  intros Ha HX HY.
  apply update_completes; try assumption; now apply truediv_floats.
Qed.

(** The outcome of a recomputation on a nonzero area: the first exception
    among the divisions by the area and the two squares, in line order. *)
Lemma update_outcome {L : Libm} (self : StatisticsPen) :
  Py.truthy (area (moments self)) = true ->
  snd (__update self) =
  match Py.truediv (momentX (moments self)) (area (moments self)) with
  | Raise e => Raise e
  | Ok mX =>
  match Py.truediv (momentY (moments self)) (area (moments self)) with
  | Raise e => Raise e
  | Ok mY =>
  match Py.truediv (momentXX (moments self)) (area (moments self)) with
  | Raise e => Raise e
  | Ok _ =>
  match Py.pow2 mX with
  | Raise e => Raise e
  | Ok _ =>
  match Py.truediv (momentYY (moments self)) (area (moments self)) with
  | Raise e => Raise e
  | Ok _ =>
  match Py.pow2 mY with
  | Raise e => Raise e
  | Ok _ =>
  match Py.truediv (momentXY (moments self)) (area (moments self)) with
  | Raise e => Raise e
  | Ok _ => Ok tt
  end end end end end end end.
Proof.
  intros H. unfold_update. rewrite H. simpl.
  repeat first
    [ rewrite pow_half_total; simpl
    | rewrite correlation_pre_total
    | rewrite slant_pre_total
    | match goal with
      | |- context [match ?r with Ok _ => _ | Raise _ => _ end] =>
          destruct r; simpl
      end ];
    reflexivity.
Qed.

Lemma update_on_floats_raises {L : Libm} (a mx my mxx myy mxy : float) (st : Stats) (e : exn) :
  Py.truthy (PyFloat a) = true ->
  snd (__update (mkPen (totals a mx my mxx myy mxy) st)) = Raise e ->
  e = OverflowError /\
  (is_infinity ((mx / a) * (mx / a)) = true \/
   is_infinity ((my / a) * (my / a)) = true).
Proof.
  intros Ha. rewrite update_outcome by exact Ha.
  cbn [moments area momentX momentY momentXX momentYY momentXY totals].
  rewrite !(truediv_floats _ a Ha).
  destruct (Py.pow2 (mx / a)) as [sqX|eX] eqn:HX.
  - destruct (Py.pow2 (my / a)) as [sqY|eY] eqn:HY; [discriminate|].
    intros [= <-]. destruct (pow2_raises _ _ HY) as (-> & Hi & _). auto.
  - intros [= <-]. destruct (pow2_raises _ _ HX) as (-> & Hi & _). auto.
Qed.

(** ** Recomputation on close *)

(** A completed recomputation stores the same statistics whatever the pen
    held before. *)
Lemma update_from_scratch {L : Libm} (m : Moments) (st : Stats) (self' : StatisticsPen) :
  __update (mkPen m st) = (self', Ok tt) ->
  moments self' = m /\ stats self' = stats_of_totals m.
Proof.
  intros Hu. unfold stats_of_totals.
  destruct (Py.truthy (area m)) eqn:Ht.
  - destruct (update_inversion (mkPen m st) self' Ht Hu)
      as (mX & mY & qXX & sqX & qYY & sqY & qXY
          & H1 & H2 & H3 & H4 & H5 & H6 & H7 & ->).
    simpl in *.
    rewrite (update_completes (mkPen m zero_stats) mX mY qXX sqX qYY sqY qXY
               Ht H1 H2 H3 H4 H5 H6 H7).
    auto.
  - rewrite (update_zero_area (mkPen m st) Ht) in Hu. injection Hu as <-.
    rewrite (update_zero_area (mkPen m zero_stats) Ht). auto.
Qed.

Section Closing.

Context {L : Libm} {B : Type} (P : Parent B).

Lemma closePath_completes (b b' : B) (self self' : StatisticsPen) :
  _closePath P (b, self) = ((b', self'), Ok tt) ->
  parent_closePath P (b, moments self) = ((b', moments self'), Ok tt) /\
  stats self' = stats_of_totals (moments self').
Proof.
  unfold _closePath.
  destruct (parent_closePath P (b, moments self)) as [[b1 m1] [[]|e]];
    [|discriminate].
  destruct (__update (mkPen m1 (stats self))) as [s1 r1] eqn:Hu.
  intros [= -> -> ->].
  destruct (update_from_scratch m1 (stats self) self' Hu) as [Hm Hs].
  rewrite Hm. auto.
Qed.

Lemma handle_totals (c : command) (o o' : B * StatisticsPen) :
  handle P c o = (o', Ok tt) ->
  parent_handle P c (fst o, moments (snd o)) =
    ((fst o', moments (snd o')), Ok tt).
Proof.
  destruct o as [b self], o' as [b' self']. simpl.
  destruct c; simpl;
    try (destruct (parent_draw P _ (b, moments self)) as [[b1 m1] r1];
         intros [= -> <- ->]; reflexivity).
  intros H. now apply closePath_completes in H.
Qed.

Lemma run_totals (cs : list command) :
  forall o o' : B * StatisticsPen,
    run P cs o = (o', Ok tt) ->
    parent_run P cs (fst o, moments (snd o)) =
      ((fst o', moments (snd o')), Ok tt).
Proof.
  induction cs as [|c cs IH]; simpl; intros o o' H.
  - injection H as <-. reflexivity.
  - destruct (handle P c o) as [o1 [[]|e]] eqn:Hh; [|discriminate].
    rewrite (handle_totals c o o1 Hh). now apply IH.
Qed.

Lemma run_app (cs1 cs2 : list command) :
  forall o o' : B * StatisticsPen,
    run P (cs1 ++ cs2) o = (o', Ok tt) ->
    exists o1, run P cs1 o = (o1, Ok tt) /\ run P cs2 o1 = (o', Ok tt).
Proof.
  induction cs1 as [|c cs1 IH]; simpl; intros o o' H.
  - exists o. auto.
  - destruct (handle P c o) as [o1 [[]|e]]; [|discriminate].
    now apply IH.
Qed.

End Closing.

(** ** The stored correlation and slant are never NaN *)

Lemma nan_not_above (x : float) :
  is_nan x = true -> Py.gt (abs x) threshold = false.
Proof. intros Hx. apply nan_is_nan in Hx. now subst x. Qed.

Lemma update_completed_clean {L : Libm} (self : StatisticsPen) :
  snd (__update self) = Ok tt -> clean (fst (__update self)).
Proof.
  intros H. destruct (Py.truthy (area (moments self))) eqn:Ht.
  - destruct (__update self) as [self' r] eqn:Hu. simpl in H. subst r.
    destruct (update_pre_snap self self' Ht Hu) as (c & s & _ & Hc & Hs).
    unfold clean. simpl. rewrite Hc, Hs. split; apply snap_never_nan.
  - rewrite (update_zero_area self Ht). split; reflexivity.
Qed.

Lemma update_keeps_correlation {L : Libm} (self : StatisticsPen) :
  is_NaN (correlation (stats self)) = false ->
  is_NaN (correlation (stats (fst (__update self)))) = false.
Proof.
  destruct (Py.truthy (area (moments self))) eqn:Ht.
  - unfold_update. rewrite Ht. simpl. split_results;
      intros; try assumption; apply snap_never_nan.
  - now rewrite (update_zero_area self Ht).
Qed.

Lemma update_keeps_slant {L : Libm} (self : StatisticsPen) :
  is_NaN (slant (stats self)) = false ->
  is_NaN (slant (stats (fst (__update self)))) = false.
Proof.
  destruct (Py.truthy (area (moments self))) eqn:Ht.
  - unfold_update. rewrite Ht. simpl. split_results;
      intros; try assumption; apply snap_never_nan.
  - now rewrite (update_zero_area self Ht).
Qed.

Lemma init_clean (m : Moments) : clean (__init__ m).
Proof. split; reflexivity. Qed.

Lemma update_clean {L : Libm} (self : StatisticsPen) :
  clean self -> clean (fst (__update self)).
Proof.
  intros [Hc Hs]. split;
    [now apply update_keeps_correlation | now apply update_keeps_slant].
Qed.

Section Lifetime.

Context {L : Libm} {B : Type} (P : Parent B).

Lemma handle_clean (c : command) (o : B * StatisticsPen) :
  clean (snd o) -> clean (snd (fst (handle P c o))).
Proof.
  destruct o as [b self]. intros H.
  destruct c; simpl;
    try (destruct (parent_draw P _ (b, moments self)) as [[b1 m1] r1];
         exact H).
  unfold _closePath.
  destruct (parent_closePath P (b, moments self)) as [[b1 m1] [[]|e]];
    [|exact H].
  pose proof (update_clean (mkPen m1 (stats self)) H) as H'.
  destruct (__update (mkPen m1 (stats self))). exact H'.
Qed.

(** Whatever is drawn on a new pen, and wherever an exception stops it, the
    stored correlation and slant are not NaN. *)
Lemma run_clean (cs : list command) :
  forall o : B * StatisticsPen,
    clean (snd o) -> clean (snd (fst (run P cs o))).
Proof.
  induction cs as [|c cs IH]; simpl; intros o H; [exact H|].
  pose proof (handle_clean c o H) as H'.
  destruct (handle P c o) as [o1 [[]|e]]; simpl in *; auto.
Qed.

Lemma new_pen_run_clean (cs : list command) (b : B) (m : Moments) :
  clean (snd (fst (run P cs (b, __init__ m)))).
Proof. apply run_clean, init_clean. Qed.

End Lifetime.

(** ** The recomputation from the five quotients *)

Ltac use_results :=
  repeat (simpl;
          match goal with
          | H : Py.truthy _ = _ |- _ => rewrite H
          | H : Py.truediv _ _ = _ |- _ => rewrite H
          | H : Py.pow2 _ = _ |- _ => rewrite H
          | |- _ => rewrite pow_half_total
          | |- _ => rewrite correlation_pre_total
          | |- _ => rewrite slant_pre_total
          end).

Lemma update_with_quotients {L : Libm} (self : StatisticsPen) (mX mY qXX qYY qXY : float) :
  Py.truthy (area (moments self)) = true ->
  Py.truediv (momentX (moments self)) (area (moments self)) = Ok mX ->
  Py.truediv (momentY (moments self)) (area (moments self)) = Ok mY ->
  Py.truediv (momentXX (moments self)) (area (moments self)) = Ok qXX ->
  Py.truediv (momentYY (moments self)) (area (moments self)) = Ok qYY ->
  Py.truediv (momentXY (moments self)) (area (moments self)) = Ok qXY ->
  __update self = from_quotients mX mY qXX qYY qXY (moments self) (stats self).
Proof.
  intros Ht H1 H2 H3 H4 H5. unfold from_quotients.
  destruct (Py.pow2 mX) as [sqX|eX] eqn:HX;
    [destruct (Py.pow2 mY) as [sqY|eY] eqn:HY|];
    unfold_update; use_results; reflexivity.
Qed.

Lemma update_float_form {L : Libm} (a mx my mxx myy mxy : float) (st : Stats) :
  Py.truthy (PyFloat a) = true ->
  __update (mkPen (totals a mx my mxx myy mxy) st) =
  from_quotients (mx / a) (my / a) (mxx / a) (myy / a) (mxy / a)
                 (totals a mx my mxx myy mxy) st.
Proof.
  intros Ha.
  apply (update_with_quotients (mkPen (totals a mx my mxx myy mxy) st));
    try exact Ha; now apply truediv_floats.
Qed.

Lemma run_after {L : Libm} {B : Type} (P : Parent B) (cs1 cs2 : list command) :
  forall o o1 : B * StatisticsPen,
    run P cs1 o = (o1, Ok tt) -> run P (cs1 ++ cs2) o = run P cs2 o1.
Proof.
  induction cs1 as [|c cs1 IH]; simpl; intros o o1 H.
  - now injection H as <-.
  - destruct (handle P c o) as [o' [[]|e]]; [|discriminate]. now apply IH.
Qed.

(** The sample pens whose means are 0 and whose variances are 0 or 1, and
    the pen whose meanX has a square out of range, are measured the same
    whatever the C library: [float_pow] answers for these bases itself. *)
Example special_pens {L : Libm} :
  __update pen_flat =
    (mkPen (moments pen_flat)
           (mkStats (PyFloat 0) (PyFloat 0) (PyFloat 1) (PyFloat 0)
                    (PyFloat 1) (PyFloat 0) (PyFloat 0)
                    (PyInt 0) (PyInt 0)), Ok tt) /\
  __update pen_sheared =
    (mkPen (moments pen_sheared)
           (mkStats (PyFloat 0) (PyFloat 0) (PyFloat 1) (PyFloat 1)
                    (PyFloat 1) (PyFloat 1) (PyFloat 0.5)
                    (PyFloat 0.5) (PyFloat 0.5)), Ok tt) /\
  __update pen_boundary =
    (mkPen (moments pen_boundary)
           (mkStats (PyFloat 0) (PyFloat 0) (PyFloat 1) (PyFloat 1)
                    (PyFloat 1) (PyFloat 1) (PyFloat threshold)
                    (PyInt 0) (PyInt 0)), Ok tt) /\
  __update pen_far =
    (mkPen (moments pen_far)
           (mkStats (PyFloat 0x1p600) (PyFloat 0) (PyInt 0) (PyInt 0)
                    (PyInt 0) (PyInt 0) (PyInt 0) (PyInt 0) (PyInt 0)),
     Raise OverflowError).
Proof.
  split; [reflexivity|]. split; [reflexivity|]. split; [reflexivity|].
  unfold pen_far. rewrite update_float_form by reflexivity.
  unfold from_quotients. now rewrite pow2_overflow.
Qed.

(** ** The claims *)

(** C1 (what the code does, against the claim): whenever a completed
    recomputation on a nonzero area stores a varianceY that equals zero, the
    pre-snap correlation and slant are both NaN, as lines 65 and 70 make
    them, and both are then stored as the int 0 by lines 68 and 71: the NaN
    does not reach the caller. *)
Theorem C1_zero_spread_stores_zero {L : Libm} (self self' : StatisticsPen) (vY : float) :
  Py.truthy (area (moments self)) = true ->
  __update self = (self', Ok tt) ->
  varianceY (stats self') = PyFloat vY ->
  Py.eq0 vY = true ->
  pre_snap_values (stats self') = Some (Py.NaN, Py.NaN) /\
  correlation (stats self') = PyInt 0 /\
  slant (stats self') = PyInt 0 /\
  is_NaN (correlation (stats self')) = false /\
  is_NaN (slant (stats self')) = false.
Proof.
  unfold Py.eq0, Py.NaN. intros Ht Hu Hv Hz.
  destruct (update_inversion self self' Ht Hu)
    as (mX & mY & qXX & sqX & qYY & sqY & qXY & _ & _ & _ & _ & _ & _ & _ & ->).
  simpl in Hv. injection Hv as Hv. rewrite Hv.
  destruct (derived_pre_snap mX mY (qXX - sqX) vY (qXY - mX * mY))
    as (Hp & Hc & Hs).
  cbv zeta in Hp, Hc, Hs.
  rewrite (correlation_value_zero_spread _ _ _ (signed_sqrt_of_zero vY Hz))
    in Hp, Hc.
  unfold slant_value in Hp, Hs. rewrite Hz in Hp, Hs.
  change (stats (mkPen (moments self)
                   (derived mX mY (qXX - sqX) vY (qXY - mX * mY))))
    with (derived mX mY (qXX - sqX) vY (qXY - mX * mY)).
  rewrite Hp, Hc, Hs. repeat split; reflexivity.
Qed.

Lemma C1_zero_spread_witness :
  Py.truthy (area (moments pen_flat)) = true /\
  __update pen_flat =
    (mkPen (moments pen_flat)
           (mkStats (PyFloat 0) (PyFloat 0) (PyFloat 1) (PyFloat 0)
                    (PyFloat 1) (PyFloat 0) (PyFloat 0)
                    (PyInt 0) (PyInt 0)), Ok tt) /\
  Py.eq0 1 = false /\
  Py.eq0 0 = true /\
  pre_snap_values (stats (fst (__update pen_flat))) = Some (Py.NaN, Py.NaN) /\
  correlation (stats (fst (__update pen_flat))) = PyInt 0 /\
  slant (stats (fst (__update pen_flat))) = PyInt 0.
Proof.
  assert (Hu : __update pen_flat = (fst (__update pen_flat), Ok tt))
    by reflexivity.
  destruct (C1_zero_spread_stores_zero pen_flat _ 0 eq_refl Hu eq_refl eq_refl)
    as (Hp & Hc & Hs & _).
  split; [reflexivity|]. split; [reflexivity|]. split; [reflexivity|].
  split; [reflexivity|]. split; [exact Hp|]. split; [exact Hc | exact Hs].
Defined.

(** C2: when the accumulated area is exactly zero (the int 0, 0.0 or -0.0:
    what [not area] tests), the recomputation is [__zero] and nothing else:
    nine assignments and no division. It completes without raising and
    leaves the int 0, never NaN, in all nine statistics, whatever they held
    before and whatever the other totals are; a division by this area would
    have raised. *)
Theorem C2_zero_area_resets_all {L : Libm} (self : StatisticsPen) :
  Py.truthy (area (moments self)) = false ->
  __update self = __zero self /\
  __update self = (mkPen (moments self) zero_stats, Ok tt) /\
  (forall v, In v [meanX; meanY; varianceX; varianceY; stddevX; stddevY;
                   covariance; correlation; slant] ->
             v (stats (fst (__update self))) = PyInt 0 /\
             is_NaN (v (stats (fst (__update self)))) = false) /\
  (forall x, exists e, Py.truediv x (area (moments self)) = Raise e).
Proof.
  intros H. split; [|split; [|split]].
  - unfold_update. now rewrite H.
  - apply update_zero_area, H.
  - intros v Hv. rewrite (update_zero_area self H). simpl in *.
    repeat (destruct Hv as [<-|Hv]; [split; reflexivity|]). contradiction.
  - intros x. apply truediv_by_zero, H.
Qed.

Lemma C2_zero_area_witness :
  Py.truthy (area (moments pen_cancelled)) = false /\
  varianceX (stats pen_cancelled) = PyFloat 0x1.5555555555554p-4 /\
  __update pen_cancelled = (mkPen (moments pen_cancelled) zero_stats, Ok tt).
Proof.
  split; [reflexivity|]. split; [reflexivity|].
  apply (proj1 (proj2 (C2_zero_area_resets_all pen_cancelled eq_refl))).
Defined.

(** C3 (amended): every completed recomputation on a nonzero area has a
    pre-snap correlation and a pre-snap slant; one whose absolute value is
    strictly above 1e-3 is stored as it is, and any other one, the value
    1e-3 itself included, is stored as the int 0. *)
Theorem C3_kept_strictly_above {L : Libm} (self self' : StatisticsPen) :
  __update self = (self', Ok tt) ->
  (Py.truthy (area (moments self)) = true ->
   exists c s, pre_snap_values (stats self') = Some (c, s)) /\
  forall c s,
    pre_snap_values (stats self') = Some (c, s) ->
    (Py.gt (abs c) threshold = true -> correlation (stats self') = PyFloat c) /\
    (Py.gt (abs c) threshold = false -> correlation (stats self') = PyInt 0) /\
    (Py.gt (abs s) threshold = true -> slant (stats self') = PyFloat s) /\
    (Py.gt (abs s) threshold = false -> slant (stats self') = PyInt 0).
Proof.
  unfold Py.gt. intros Hu. split.
  - intros Ht. destruct (update_pre_snap self self' Ht Hu) as (c & s & Hp & _).
    now exists c, s.
  - intros c s Hp.
    destruct (update_snapped self self' c s Hu Hp) as [-> ->].
    repeat split; first [apply snap_kept | apply snap_dropped].
Qed.

Lemma C3_kept_witness :
  __update pen_sheared = (fst (__update pen_sheared), Ok tt) /\
  pre_snap_values (stats (fst (__update pen_sheared))) = Some (0.5, 0.5) /\
  Py.gt (abs 0.5) threshold = true /\
  correlation (stats (fst (__update pen_sheared))) = PyFloat 0.5 /\
  slant (stats (fst (__update pen_sheared))) = PyFloat 0.5.
Proof.
  assert (Hu : __update pen_sheared = (fst (__update pen_sheared), Ok tt))
    by reflexivity.
  assert (Hp : pre_snap_values (stats (fst (__update pen_sheared))) =
               Some (0.5, 0.5)) by reflexivity.
  destruct (C3_kept_strictly_above pen_sheared _ Hu) as [_ K].
  destruct (K 0.5 0.5 Hp) as (Hc & _ & Hs & _).
  split; [exact Hu|]. split; [exact Hp|]. split; [reflexivity|].
  split; [apply Hc | apply Hs]; reflexivity.
Defined.

(** C3 as stated fails at the boundary: with pre-snap correlation and slant
    both exactly 1e-3 (so at or above the threshold), the stored values are
    the int 0, not 1e-3. *)
Lemma C3_boundary_is_snapped :
  __update pen_boundary =
    (mkPen (moments pen_boundary)
           (mkStats (PyFloat 0) (PyFloat 0) (PyFloat 1) (PyFloat 1)
                    (PyFloat 1) (PyFloat 1) (PyFloat threshold)
                    (PyInt 0) (PyInt 0)), Ok tt) /\
  pre_snap_values (stats (fst (__update pen_boundary))) =
    Some (threshold, threshold) /\
  (threshold <=? abs threshold) = true /\
  correlation (stats (fst (__update pen_boundary))) <> PyFloat threshold /\
  slant (stats (fst (__update pen_boundary))) <> PyFloat threshold.
Proof.
  repeat split; try reflexivity; simpl; discriminate.
Qed.

(** C4: every completed recomputation on a nonzero area has a pre-snap
    correlation and a pre-snap slant; a pre-snap correlation with
    [|correlation| <= 1e-3] is stored as the int 0, and a pre-snap slant
    with [|slant| <= 1e-3] is stored as the int 0. *)
Theorem C4_small_values_snapped {L : Libm} (self self' : StatisticsPen) :
  __update self = (self', Ok tt) ->
  (Py.truthy (area (moments self)) = true ->
   exists c s, pre_snap_values (stats self') = Some (c, s)) /\
  forall c s,
    pre_snap_values (stats self') = Some (c, s) ->
    ((abs c <=? threshold) = true -> correlation (stats self') = PyInt 0) /\
    ((abs s <=? threshold) = true -> slant (stats self') = PyInt 0).
Proof.
  intros Hu. split.
  - intros Ht. destruct (update_pre_snap self self' Ht Hu) as (c & s & Hp & _).
    now exists c, s.
  - intros c s Hp.
    destruct (update_snapped self self' c s Hu Hp) as [-> ->].
    split; apply snap_small.
Qed.

Lemma C4_small_values_witness :
  __update pen_boundary = (fst (__update pen_boundary), Ok tt) /\
  pre_snap_values (stats (fst (__update pen_boundary))) =
    Some (threshold, threshold) /\
  (abs threshold <=? threshold) = true /\
  correlation (stats (fst (__update pen_boundary))) = PyInt 0 /\
  slant (stats (fst (__update pen_boundary))) = PyInt 0.
Proof.
  assert (Hu : __update pen_boundary = (fst (__update pen_boundary), Ok tt))
    by reflexivity.
  assert (Hp : pre_snap_values (stats (fst (__update pen_boundary))) =
               Some (threshold, threshold)) by reflexivity.
  destruct (C4_small_values_snapped pen_boundary _ Hu) as [_ K].
  destruct (K threshold threshold Hp) as [Hc Hs].
  split; [exact Hu|]. split; [exact Hp|]. split; [reflexivity|].
  split; [apply Hc | apply Hs]; reflexivity.
Defined.

(** C5 (what the code does, against the claim): on float totals with a
    nonzero area, when the square of meanX or of meanY is out of range,
    [meanX ** 2] or [meanY ** 2] raises OverflowError (line 53 or 54) and
    the recomputation stops there. meanX and meanY are stored; varianceY
    is not, and keeps what it held; varianceX is stored only when it is
    meanY whose square is out of range. The divisions of the claim's
    formulas have their values all the same, and so has the square of a
    mean that is in range. This holds whatever the C library. *)
Theorem C5_overflow_skips_variances {L : Libm}
        (a mx my mxx myy mxy : float) (st : Stats) :
  Py.truthy (PyFloat a) = true ->
  square_overflows (mx / a) || square_overflows (my / a) = true ->
  let self' := fst (__update (mkPen (totals a mx my mxx myy mxy) st)) in
  snd (__update (mkPen (totals a mx my mxx myy mxy) st)) = Raise OverflowError /\
  meanX (stats self') = PyFloat (mx / a) /\
  meanY (stats self') = PyFloat (my / a) /\
  varianceY (stats self') = varianceY st /\
  (square_overflows (mx / a) = true ->
   varianceX (stats self') = varianceX st) /\
  (square_overflows (mx / a) = false ->
   varianceX (stats self') = PyFloat (mxx / a - Py.square (mx / a))) /\
  Py.truediv (PyFloat mxx) (PyFloat a) = Ok (mxx / a) /\
  Py.truediv (PyFloat myy) (PyFloat a) = Ok (myy / a) /\
  (square_overflows (my / a) = false ->
   Py.pow2 (my / a) = Ok (Py.square (my / a))).
Proof.
  intros Ha Ho. cbv zeta. rewrite update_float_form by exact Ha.
  rewrite !(truediv_floats _ a Ha).
  unfold from_quotients. rewrite !pow2_overflow.
  destruct (square_overflows (mx / a)) eqn:EX.
  - repeat split; try reflexivity; try discriminate.
    intros Hy. now rewrite Hy.
  - simpl in Ho. rewrite Ho.
    repeat split; try reflexivity; discriminate.
Qed.

Lemma C5_overflow_witness :
  Py.truthy (PyFloat 1) = true /\
  square_overflows (0x1p600 / 1) || square_overflows (0 / 1) = true /\
  __update pen_far =
    (mkPen (moments pen_far)
           (mkStats (PyFloat 0x1p600) (PyFloat 0) (PyInt 0) (PyInt 0)
                    (PyInt 0) (PyInt 0) (PyInt 0) (PyInt 0) (PyInt 0)),
     Raise OverflowError) /\
  varianceX (stats (fst (__update pen_far))) = varianceX zero_stats /\
  varianceY (stats (fst (__update pen_far))) = varianceY zero_stats /\
  Py.truediv (PyFloat 1) (PyFloat 1) = Ok (1 / 1) /\
  Py.pow2 (0 / 1) = Ok 0 /\
  1 / 1 - 0 = 1.
Proof.
  destruct (C5_overflow_skips_variances 1 0x1p600 0 1 1 0.5 zero_stats
              eq_refl eq_refl)
    as (_ & _ & _ & HvY & HvX & _ & _ & Hq & Hs).
  split; [reflexivity|]. split; [reflexivity|]. split; [reflexivity|].
  split; [exact (HvX eq_refl)|]. split; [exact HvY|].
  split; [exact Hq|]. split; [exact (Hs eq_refl)|]. reflexivity.
Defined.




(** C7 (what the code does, against the claim): on float totals with a
    nonzero area, when the square of meanX or of meanY is out of range, the
    recomputation has raised OverflowError before line 60: covariance and
    correlation keep what they held, although nothing in the claim's own
    formula, [momentXY / area - meanX * meanY], raises. This holds whatever
    the C library. *)
Theorem C7_overflow_skips_covariance {L : Libm}
        (a mx my mxx myy mxy : float) (st : Stats) :
  Py.truthy (PyFloat a) = true ->
  square_overflows (mx / a) || square_overflows (my / a) = true ->
  let self' := fst (__update (mkPen (totals a mx my mxx myy mxy) st)) in
  snd (__update (mkPen (totals a mx my mxx myy mxy) st)) = Raise OverflowError /\
  meanX (stats self') = PyFloat (mx / a) /\
  meanY (stats self') = PyFloat (my / a) /\
  Py.truediv (PyFloat mxy) (PyFloat a) = Ok (mxy / a) /\
  covariance (stats self') = covariance st /\
  correlation (stats self') = correlation st.
Proof.
  intros Ha Ho. cbv zeta. rewrite update_float_form by exact Ha.
  rewrite (truediv_floats _ a Ha).
  unfold from_quotients. rewrite !pow2_overflow.
  destruct (square_overflows (mx / a)) eqn:EX.
  - repeat split; reflexivity.
  - simpl in Ho. rewrite Ho. repeat split; reflexivity.
Qed.

Lemma C7_overflow_witness :
  Py.truthy (PyFloat 1) = true /\
  square_overflows (0x1p600 / 1) || square_overflows (0 / 1) = true /\
  snd (__update pen_far) = Raise OverflowError /\
  0.5 / 1 - (0x1p600 / 1) * (0 / 1) = 0.5 /\
  covariance (stats (fst (__update pen_far))) = PyInt 0 /\
  correlation (stats (fst (__update pen_far))) = PyInt 0.
Proof.
  destruct (C7_overflow_skips_covariance 1 0x1p600 0 1 1 0.5 zero_stats
              eq_refl eq_refl)
    as (Hr & _ & _ & _ & Hcov & Hcor).
  split; [reflexivity|]. split; [reflexivity|]. split; [exact Hr|].
  split; [reflexivity|]. split; [exact Hcov | exact Hcor].
Defined.

(** What the claim says does hold on every recomputation that raises
    nothing: it stores covariance = momentXY / area - meanX * meanY; and
    when [stddevX * stddevY == 0] is false and the absolute value of
    covariance / (stddevX * stddevY) compares above 1e-3, it stores that
    quotient as the correlation. *)
Lemma covariance_and_correlation {L : Libm} (self : StatisticsPen)
      (mX mY qXX sqX qYY sqY qXY : float) :
  Py.truthy (area (moments self)) = true ->
  Py.truediv (momentX (moments self)) (area (moments self)) = Ok mX ->
  Py.truediv (momentY (moments self)) (area (moments self)) = Ok mY ->
  Py.truediv (momentXX (moments self)) (area (moments self)) = Ok qXX ->
  Py.pow2 mX = Ok sqX ->
  Py.truediv (momentYY (moments self)) (area (moments self)) = Ok qYY ->
  Py.pow2 mY = Ok sqY ->
  Py.truediv (momentXY (moments self)) (area (moments self)) = Ok qXY ->
  exists sX sY cov,
    snd (__update self) = Ok tt /\
    stddevX (stats (fst (__update self))) = PyFloat sX /\
    stddevY (stats (fst (__update self))) = PyFloat sY /\
    covariance (stats (fst (__update self))) = PyFloat cov /\
    cov = qXY - mX * mY /\
    (Py.eq0 (sX * sY) = false ->
     Py.gt (abs (cov / (sX * sY))) threshold = true ->
     correlation (stats (fst (__update self))) = PyFloat (cov / (sX * sY))).
Proof.
  intros H H1 H2 H3 H4 H5 H6 H7.
  rewrite (update_completes self mX mY qXX sqX qYY sqY qXY
             H H1 H2 H3 H4 H5 H6 H7).
  exists (signed_sqrt (qXX - sqX)), (signed_sqrt (qYY - sqY)), (qXY - mX * mY).
  repeat split; try reflexivity.
  unfold Py.eq0, Py.gt. intros Hne Hgt. simpl.
  unfold correlation_value. rewrite Hne. now apply snap_kept.
Qed.

(** C8 (what the code does, against the claim): when the accumulator's
    close handling leaves float totals with a nonzero area and a meanX whose
    square is out of range, the ClosePath raises OverflowError out of the
    recomputation (line 53): meanX and meanY are those of the new totals,
    and the other seven statistics are still the ones the pen held before
    this close. Nothing was recomputed from scratch: what the pen reads
    after the close depends on what it held before. This holds for every
    accumulator and every C library. *)
Theorem C8_raising_close_is_stale {L : Libm} {B : Type} (P : Parent B)
        (cs : list command) (o : B * StatisticsPen) (b b' : B)
        (self : StatisticsPen) (a mx my mxx myy mxy : float) :
  run P cs o = ((b, self), Ok tt) ->
  parent_closePath P (b, moments self) =
    ((b', totals a mx my mxx myy mxy), Ok tt) ->
  Py.truthy (PyFloat a) = true ->
  square_overflows (mx / a) = true ->
  run P (cs ++ [ClosePath]) o =
    ((b', mkPen (totals a mx my mxx myy mxy)
                (set_meanY (PyFloat (my / a))
                   (set_meanX (PyFloat (mx / a)) (stats self)))),
     Raise OverflowError).
Proof.
  intros Hr Hp Ha Ho. rewrite (run_after P cs [ClosePath] o (b, self) Hr).
  simpl. unfold _closePath. rewrite Hp.
  rewrite update_float_form by exact Ha.
  unfold from_quotients. rewrite pow2_overflow, Ho. reflexivity.
Qed.

Lemma C8_raising_close_witness :
  run replay_parent (contour ++ [MoveTo origin; LineTo origin])
      ([moments pen_square; moments pen_far], pen_blank) =
    (([], mkPen (moments pen_far) (stats (fst (__update pen_square)))),
     Ok tt) /\
  square_overflows (0x1p600 / 1) = true /\
  square_then_far =
    (([], mkPen (moments pen_far)
                (set_meanY (PyFloat (0 / 1))
                   (set_meanX (PyFloat (0x1p600 / 1))
                      (stats (fst (__update pen_square)))))),
     Raise OverflowError) /\
  snd far_at_once = Raise OverflowError /\
  moments (snd (fst far_at_once)) = moments (snd (fst square_then_far)) /\
  varianceX (stats (snd (fst square_then_far))) =
    varianceX (stats (fst (__update pen_square))) /\
  varianceX (stats (snd (fst far_at_once))) = PyInt 0 /\
  stats (snd (fst square_then_far)) <> stats (snd (fst far_at_once)).
Proof.
  assert (Hr : run replay_parent (contour ++ [MoveTo origin; LineTo origin])
                 ([moments pen_square; moments pen_far], pen_blank) =
               (([], mkPen (moments pen_far)
                           (stats (fst (__update pen_square)))), Ok tt))
    by reflexivity.
  split; [exact Hr|]. split; [reflexivity|].
  split; [|split; [reflexivity|]; split; [reflexivity|]; split; [reflexivity|];
           split; [reflexivity|]; vm_compute; discriminate].
  exact (C8_raising_close_is_stale replay_parent
           (contour ++ [MoveTo origin; LineTo origin])
           ([moments pen_square; moments pen_far], pen_blank)
           [] [] (mkPen (moments pen_far) (stats (fst (__update pen_square))))
           1 0x1p600 0 1 1 0.5 Hr eq_refl eq_refl eq_refl).
Defined.

(** What the claim says does hold on every close that raises nothing: the
    totals the sequence leaves are those the accumulator alone reaches on
    it, the recomputation ran after the close handling, on these totals,
    and the nine statistics are the function [stats_of_totals] of them. *)
Lemma close_recomputes {L : Libm} {B : Type} (P : Parent B)
      (cs : list command) (o o' : B * StatisticsPen) :
  run P (cs ++ [ClosePath]) o = (o', Ok tt) ->
  parent_run P (cs ++ [ClosePath]) (fst o, moments (snd o)) =
    ((fst o', moments (snd o')), Ok tt) /\
  stats (snd o') = stats_of_totals (moments (snd o')) /\
  exists o1,
    run P cs o = (o1, Ok tt) /\
    parent_closePath P (fst o1, moments (snd o1)) =
      ((fst o', moments (snd o')), Ok tt) /\
    __update (mkPen (moments (snd o')) (stats (snd o1))) = (snd o', Ok tt).
Proof.
  intros H. split; [now apply run_totals|].
  destruct (run_app P cs [ClosePath] o o' H) as (o1 & H1 & H2).
  simpl in H2.
  destruct (_closePath P o1) as [o2 [[]|e]] eqn:Hc; [|discriminate].
  injection H2 as ->. destruct o1 as [b1 s1], o' as [b' s'].
  destruct (closePath_completes P b1 b' s1 s' Hc) as [Hp Hs].
  split; [exact Hs|]. exists (b1, s1). split; [exact H1|].
  split; [exact Hp|]. simpl.
  unfold _closePath in Hc. simpl in Hp. rewrite Hp in Hc.
  destruct (__update (mkPen (moments s') (stats s1))) as [s2 r2].
  now injection Hc as -> ->.
Qed.

(** C9: a recomputation, completed or interrupted by an exception, leaves the
    six totals as they were. *)
Theorem C9_totals_unchanged {L : Libm} (self : StatisticsPen) :
  moments (fst (__update self)) = moments self /\
  area (moments (fst (__update self))) = area (moments self) /\
  momentX (moments (fst (__update self))) = momentX (moments self) /\
  momentY (moments (fst (__update self))) = momentY (moments self) /\
  momentXX (moments (fst (__update self))) = momentXX (moments self) /\
  momentYY (moments (fst (__update self))) = momentYY (moments self) /\
  momentXY (moments (fst (__update self))) = momentXY (moments self).
Proof.
  assert (H : moments (fst (__update self)) = moments self).
  { destruct (Py.truthy (area (moments self))) eqn:Ht.
    - unfold_update. rewrite Ht. simpl. split_results; reflexivity.
    - now rewrite update_zero_area. }
  now rewrite H.
Qed.

(** C10: the stored correlation and slant are never NaN. A completed
    recomputation stores the int 0 or a value whose absolute value compared
    above 1e-3; for a NaN intermediate the comparison [abs(v) > 1e-3] is
    false and the int 0 is stored. A recomputation interrupted by an
    exception stops before the snapping lines and leaves correlation and
    slant as they were. *)
Theorem C10_stored_never_nan {L : Libm} (self : StatisticsPen) :
  (snd (__update self) = Ok tt ->
   is_NaN (correlation (stats (fst (__update self)))) = false /\
   is_NaN (slant (stats (fst (__update self)))) = false) /\
  (is_NaN (correlation (stats self)) = false ->
   is_NaN (correlation (stats (fst (__update self)))) = false) /\
  (is_NaN (slant (stats self)) = false ->
   is_NaN (slant (stats (fst (__update self)))) = false) /\
  (forall x, is_nan x = true -> Py.gt (abs x) threshold = false) /\
  (forall x, is_nan x = true -> snap x = PyInt 0).
Proof.
  split; [apply update_completed_clean|].
  split; [apply update_keeps_correlation|].
  split; [apply update_keeps_slant|].
  split; [apply nan_not_above | apply snap_is_nan].
Qed.

Lemma C10_never_nan_witness :
  snd (__update pen_flat) = Ok tt /\
  pre_snap_values (stats (fst (__update pen_flat))) = Some (Py.NaN, Py.NaN) /\
  is_NaN (correlation (stats (fst (__update pen_flat)))) = false /\
  is_NaN (slant (stats (fst (__update pen_flat)))) = false.
Proof.
  destruct (C10_stored_never_nan pen_flat) as (H & _).
  split; [reflexivity|]. split; [reflexivity|]. apply H. reflexivity.
Defined.

(** ** Further properties of the recomputation *)

Lemma opp_eqb0 (x : float) : (- x =? 0) = (x =? 0).
Proof.
  rewrite !eqb0_spec, opp_spec. destruct (Prim2SF x); reflexivity.
Qed.

Lemma div_opp_opp (x y : float) : (- x) / (- y) = x / y.
Proof.
  apply Prim2SF_inj. rewrite !div_spec, !opp_spec. unfold SF64div, SFdiv.
  destruct (Prim2SF x) as [sx|sx| |sx mx ex],
           (Prim2SF y) as [sy|sy| |sy my ey]; simpl;
    try reflexivity; destruct sx, sy; reflexivity.
Qed.

(** X1: on float totals the statistics do not depend on the winding
    direction: negating all six totals gives the same nine statistics and
    the same outcome. *)
Theorem X1_reversed_winding {L : Libm} (a mx my mxx myy mxy : float) (st : Stats) :
  stats (fst (__update (mkPen (totals (- a) (- mx) (- my)
                                      (- mxx) (- myy) (- mxy)) st))) =
  stats (fst (__update (mkPen (totals a mx my mxx myy mxy) st))) /\
  snd (__update (mkPen (totals (- a) (- mx) (- my)
                               (- mxx) (- myy) (- mxy)) st)) =
  snd (__update (mkPen (totals a mx my mxx myy mxy) st)).
Proof.
  destruct (Py.truthy (PyFloat a)) eqn:Ha.
  - assert (Hn : Py.truthy (PyFloat (- a)) = true)
      by (simpl in *; now rewrite opp_eqb0).
    rewrite !update_float_form by assumption.
    rewrite !div_opp_opp. unfold from_quotients.
    destruct (Py.pow2 (mx / a)); [destruct (Py.pow2 (my / a))|];
      split; reflexivity.
  - assert (Hn : Py.truthy (PyFloat (- a)) = false)
      by (simpl in *; now rewrite opp_eqb0).
    rewrite (update_zero_area (mkPen (totals a mx my mxx myy mxy) st) Ha).
    rewrite (update_zero_area
               (mkPen (totals (- a) (- mx) (- my) (- mxx) (- myy) (- mxy)) st)
               Hn).
    split; reflexivity.
Qed.

Lemma mul_comm (x y : float) : x * y = y * x.
Proof.
  apply Prim2SF_inj. rewrite !mul_spec. unfold SF64mul, SFmul.
  destruct (Prim2SF x) as [sx|sx| |sx mx ex],
           (Prim2SF y) as [sy|sy| |sy my ey];
    try reflexivity; try (now rewrite xorb_comm).
  now rewrite xorb_comm, Pos.mul_comm, Z.add_comm.
Qed.

Lemma correlation_value_comm (sx sy cov : float) :
  correlation_value sy sx cov = correlation_value sx sy cov.
Proof. unfold correlation_value. now rewrite (mul_comm sy sx). Qed.

(** X2: exchanging the roles of the two axes in the totals exchanges the
    means, the variances and the standard deviations, and leaves the
    covariance and the stored correlation as they are: whenever the
    recomputation completes on a pen, it completes on the pen with the axes
    exchanged, with these statistics. *)
Theorem X2_exchanged_axes {L : Libm} (self self' : StatisticsPen) :
  __update self = (self', Ok tt) ->
  exists self'',
    __update (mkPen (swap_axes (moments self)) (stats self)) = (self'', Ok tt) /\
    meanX (stats self'') = meanY (stats self') /\
    meanY (stats self'') = meanX (stats self') /\
    varianceX (stats self'') = varianceY (stats self') /\
    varianceY (stats self'') = varianceX (stats self') /\
    stddevX (stats self'') = stddevY (stats self') /\
    stddevY (stats self'') = stddevX (stats self') /\
    covariance (stats self'') = covariance (stats self') /\
    correlation (stats self'') = correlation (stats self').
Proof.
  intros Hu. destruct (Py.truthy (area (moments self))) eqn:Ht.
  - destruct (update_inversion self self' Ht Hu)
      as (mX & mY & qXX & sqX & qYY & sqY & qXY
          & H1 & H2 & H3 & H4 & H5 & H6 & H7 & ->).
    eexists. split.
    + apply (update_completes (mkPen (swap_axes (moments self)) (stats self))
               mY mX qYY sqY qXX sqX qXY); assumption.
    + simpl. rewrite (mul_comm mY mX), correlation_value_comm.
      repeat split; reflexivity.
  - rewrite (update_zero_area self Ht) in Hu. injection Hu as <-.
    eexists. split.
    + apply (update_zero_area (mkPen (swap_axes (moments self)) (stats self))).
      exact Ht.
    + repeat split; reflexivity.
Qed.

Lemma X2_exchanged_axes_witness :
  __update pen_signed = (fst (__update pen_signed), Ok tt) /\
  exists self'',
    __update (mkPen (totals 1 0 0 (-3) 2 0) zero_stats) = (self'', Ok tt) /\
    varianceX (stats self'') = PyFloat (-3) /\
    varianceY (stats self'') = PyFloat 2 /\
    stddevX (stats self'') = stddevY (stats (fst (__update pen_signed))).
Proof.
  assert (H : __update pen_signed = (fst (__update pen_signed), Ok tt))
    by reflexivity.
  split; [exact H|].
  destruct (X2_exchanged_axes pen_signed (fst (__update pen_signed)) H)
    as (s & Hu & _ & _ & HvX & HvY & HsX & _).
  exists s. split; [exact Hu|]. split; [exact HvX|]. split; [exact HvY|].
  exact HsX.
Defined.

(** X3: a recomputation repeated on the pen it left changes nothing more and
    ends the same way, whether it completed or raised. *)
Theorem X3_recomputation_idempotent {L : Libm} (self : StatisticsPen) :
  __update (fst (__update self)) = __update self.
Proof.
  destruct (Py.truthy (area (moments self))) eqn:Ht.
  - destruct (Py.truediv (momentX (moments self)) (area (moments self)))
      as [mX|e1] eqn:H1;
      [destruct (Py.truediv (momentY (moments self)) (area (moments self)))
         as [mY|e2] eqn:H2;
       [destruct (Py.truediv (momentXX (moments self)) (area (moments self)))
          as [qXX|e3] eqn:H3;
        [destruct (Py.pow2 mX) as [sqX|e4] eqn:H4;
         [destruct (Py.truediv (momentYY (moments self)) (area (moments self)))
            as [qYY|e5] eqn:H5;
          [destruct (Py.pow2 mY) as [sqY|e6] eqn:H6;
           [destruct (Py.truediv (momentXY (moments self))
                                 (area (moments self)))
              as [qXY|e7] eqn:H7|]|]|]|]|]|];
      unfold_update; use_results; reflexivity.
  - rewrite (update_zero_area self Ht). simpl.
    apply (update_zero_area (mkPen (moments self) zero_stats)). exact Ht.
Qed.

Lemma truediv_float_divisor (x : pyval) (a : float) (e : exn) :
  Py.truthy (PyFloat a) = true ->
  Py.truediv x (PyFloat a) = Raise e -> e = OverflowError.
Proof.
  simpl. intros Ha. apply negb_true_iff in Ha.
  destruct x as [z|f]; simpl; unfold Py.float_truediv; rewrite Ha.
  - unfold Py.float_of_int.
    destruct (binary_normalize prec emax z 0 false); intros [= <-] || discriminate;
      reflexivity.
  - discriminate.
Qed.

(** X4: when the area total is a float, the recomputation never raises
    ZeroDivisionError: the tests of lines 43, 64 and 70 guard every
    division. The only exception it can raise is OverflowError. *)
Theorem X4_no_zero_division {L : Libm} (self : StatisticsPen) (a : float) (e : exn) :
  area (moments self) = PyFloat a ->
  snd (__update self) = Raise e ->
  e = OverflowError.
Proof.
  intros Ha. destruct (Py.truthy (area (moments self))) eqn:Ht.
  - rewrite (update_outcome self Ht). rewrite Ha in *.
    repeat match goal with
           | |- context [match ?r with Ok _ => _ | Raise _ => _ end] =>
               let E := fresh "E" in destruct r eqn:E
           end;
      try discriminate; intros [= <-];
      first [ eapply truediv_float_divisor; eassumption
            | eapply pow2_raises; eassumption ].
  - now rewrite (update_zero_area self Ht).
Qed.

Lemma X4_no_zero_division_witness :
  area (moments pen_far) = PyFloat 1 /\
  snd (__update pen_far) = Raise OverflowError /\
  OverflowError = OverflowError.
Proof.
  split; [reflexivity|]. split; [reflexivity|].
  apply (X4_no_zero_division pen_far 1 OverflowError); reflexivity.
Defined.

(** X5: on float totals with a nonzero area, the recomputation completes
    exactly when neither mean has a square out of range; otherwise it raises
    OverflowError. *)
Theorem X5_completes_unless_square_overflows {L : Libm}
        (a mx my mxx myy mxy : float) (st : Stats) :
  Py.truthy (PyFloat a) = true ->
  snd (__update (mkPen (totals a mx my mxx myy mxy) st)) =
  if square_overflows (mx / a) || square_overflows (my / a)
  then Raise OverflowError
  else Ok tt.
Proof.
  intros Ha. rewrite update_float_form by exact Ha.
  unfold from_quotients. rewrite !pow2_overflow.
  destruct (square_overflows (mx / a)), (square_overflows (my / a));
    reflexivity.
Qed.

Lemma X5_completes_witness :
  Py.truthy (PyFloat 1) = true /\
  square_overflows (0x1p600 / 1) = true /\
  snd (__update pen_far) = Raise OverflowError /\
  square_overflows (0.5 / 1) = false /\
  snd (__update pen_square) = Ok tt.
Proof.
  split; [reflexivity|]. split; [reflexivity|].
  split; [|split; [reflexivity|]].
  - exact (X5_completes_unless_square_overflows 1 0x1p600 0 1 1 0.5
             zero_stats eq_refl).
  - exact (X5_completes_unless_square_overflows 1 0.5 0.5
             0x1.5555555555555p-2 0x1.5555555555555p-2 0.25
             zero_stats eq_refl).
Defined.

(** X6: a NaN area on float totals does not stop the recomputation: it
    completes, the means, variances, standard deviations and the covariance
    are all NaN, and the correlation and the slant are stored as the
    int 0. *)
Theorem X6_nan_area {L : Libm} (a mx my mxx myy mxy : float) (st : Stats) :
  is_nan a = true ->
  __update (mkPen (totals a mx my mxx myy mxy) st) =
  (mkPen (totals a mx my mxx myy mxy)
         (mkStats (PyFloat nan) (PyFloat nan) (PyFloat nan) (PyFloat nan)
                  (PyFloat nan) (PyFloat nan) (PyFloat nan)
                  (PyInt 0) (PyInt 0)), Ok tt).
Proof.
  intros Ha.
  assert (Ht : Py.truthy (PyFloat a) = true).
  { simpl. rewrite (nan_is_nan a Ha). reflexivity. }
  rewrite update_float_form by exact Ht.
  rewrite !(div_nan_r _ a Ha). reflexivity.
Qed.

Lemma X6_nan_area_witness :
  is_nan nan = true /\
  __update (mkPen (totals nan 1 2 3 4 5) zero_stats) =
  (mkPen (totals nan 1 2 3 4 5)
         (mkStats (PyFloat nan) (PyFloat nan) (PyFloat nan) (PyFloat nan)
                  (PyFloat nan) (PyFloat nan) (PyFloat nan)
                  (PyInt 0) (PyInt 0)), Ok tt).
Proof.
  split; [reflexivity|].
  exact (X6_nan_area nan 1 2 3 4 5 zero_stats eq_refl).
Defined.

(** X7: a recomputation that raises stops before line 60 stores anything:
    the covariance, the correlation and the slant keep the values they had,
    beside whatever means and variances were already replaced. *)
Theorem X7_interrupted_keeps_last_three {L : Libm} (self : StatisticsPen) (e : exn) :
  snd (__update self) = Raise e ->
  covariance (stats (fst (__update self))) = covariance (stats self) /\
  correlation (stats (fst (__update self))) = correlation (stats self) /\
  slant (stats (fst (__update self))) = slant (stats self).
Proof.
  destruct (Py.truthy (area (moments self))) eqn:Ht.
  - unfold_update. rewrite Ht. simpl.
    repeat first
      [ rewrite correlation_pre_total; simpl
      | rewrite slant_pre_total; simpl
      | match goal with
        | |- context [match ?r with Ok _ => _ | Raise _ => _ end] =>
            destruct r; simpl
        end ];
      try discriminate; intros _; repeat split; reflexivity.
  - rewrite (update_zero_area self Ht). discriminate.
Qed.

Lemma X7_interrupted_witness :
  snd (__update (mkPen (moments pen_far) (stats (fst (__update pen_sheared)))))
    = Raise OverflowError /\
  meanX (stats (fst (__update
     (mkPen (moments pen_far) (stats (fst (__update pen_sheared)))))))
    = PyFloat 0x1p600 /\
  correlation (stats (fst (__update
     (mkPen (moments pen_far) (stats (fst (__update pen_sheared)))))))
    = PyFloat 0.5.
Proof.
  assert (Hr : snd (__update (mkPen (moments pen_far)
                                     (stats (fst (__update pen_sheared)))))
               = Raise OverflowError) by reflexivity.
  split; [exact Hr|]. split; [reflexivity|].
  destruct (X7_interrupted_keeps_last_three
              (mkPen (moments pen_far) (stats (fst (__update pen_sheared))))
              OverflowError Hr) as (_ & H & _).
  rewrite H. reflexivity.
Defined.

Lemma div_zero_l (x y : float) :
  (x =? 0) = true -> (x / y =? 0) = true \/ is_nan (x / y) = true.
Proof.
  rewrite !eqb0_spec, is_nan_spec, div_spec. unfold SF64div, SFdiv.
  destruct (Prim2SF x); try discriminate. intros _.
  destruct (Prim2SF y); simpl; auto.
Qed.

Lemma snap_zero (x : float) : (x =? 0) = true -> snap x = PyInt 0.
Proof.
  rewrite eqb0_spec. intros H. apply snap_dropped.
  rewrite ltb_spec, abs_spec. destruct (Prim2SF x); try discriminate.
  reflexivity.
Qed.

Lemma snap_zero_quotient (x y : float) :
  (x =? 0) = true -> snap (x / y) = PyInt 0.
Proof.
  intros H. destruct (div_zero_l x y H); [now apply snap_zero|].
  now apply snap_is_nan.
Qed.

(** X8: a completed recomputation that stores a covariance equal to zero
    (0.0 or -0.0) stores the int 0 as correlation and as slant, whatever the
    variances are. *)
Theorem X8_zero_covariance {L : Libm} (self self' : StatisticsPen) (c : float) :
  __update self = (self', Ok tt) ->
  covariance (stats self') = PyFloat c ->
  (c =? 0) = true ->
  correlation (stats self') = PyInt 0 /\ slant (stats self') = PyInt 0.
Proof.
  intros Hu. destruct (Py.truthy (area (moments self))) eqn:Ht.
  - destruct (update_inversion self self' Ht Hu)
      as (mX & mY & qXX & sqX & qYY & sqY & qXY
          & _ & _ & _ & _ & _ & _ & _ & ->).
    simpl. intros [= <-] Hc.
    unfold correlation_value, slant_value. split.
    + destruct (signed_sqrt _ * signed_sqrt _ =? 0);
        [apply snap_nan | now apply snap_zero_quotient].
    + destruct (qYY - sqY =? 0);
        [apply snap_nan | now apply snap_zero_quotient].
  - rewrite (update_zero_area self Ht) in Hu. injection Hu as <-.
    auto.
Qed.

Lemma X8_zero_covariance_witness :
  __update pen_square = (fst (__update pen_square), Ok tt) /\
  covariance (stats (fst (__update pen_square))) = PyFloat 0 /\
  (0 =? 0) = true /\
  correlation (stats (fst (__update pen_square))) = PyInt 0 /\
  slant (stats (fst (__update pen_square))) = PyInt 0.
Proof.
  split; [reflexivity|]. split; [reflexivity|]. split; [reflexivity|].
  apply (X8_zero_covariance pen_square (fst (__update pen_square)) 0);
    reflexivity.
Defined.

Section OnlyOnClose.

Context {L : Libm} {B : Type} (P : Parent B).

Lemma handle_draw_stats (c : command) (o : B * StatisticsPen) :
  is_close c = false ->
  stats (snd (fst (handle P c o))) = stats (snd o).
Proof.
  destruct o as [b self].
  destruct c; simpl; try discriminate; intros _;
    destruct (parent_draw P _ (b, moments self)) as [[b1 m1] r1]; reflexivity.
Qed.

End OnlyOnClose.

(** X9: the nine statistics change at a ClosePath and nowhere else. While
    a command sequence holds no ClosePath they stay what they were, whatever
    the accumulator does with the totals and wherever an exception stops the
    sequence; on a new pen they all read the int 0. *)
Theorem X9_statistics_wait_for_close {L : Libm} {B : Type} (P : Parent B)
        (cs : list command) (o : B * StatisticsPen) :
  draws_only cs = true ->
  stats (snd (fst (run P cs o))) = stats (snd o) /\
  (forall m, snd o = __init__ m ->
             stats (snd (fst (run P cs o))) = zero_stats).
Proof.
  intros H.
  assert (E : stats (snd (fst (run P cs o))) = stats (snd o)).
  { revert o. induction cs as [|c cs IH]; simpl in *; intros o; [reflexivity|].
    apply andb_true_iff in H as [Hc Hcs]. apply negb_true_iff in Hc.
    pose proof (handle_draw_stats P c o Hc) as Hh.
    destruct (handle P c o) as [o1 [[]|e]]; simpl in *.
    - now rewrite IH.
    - exact Hh. }
  split; [exact E|]. intros m Hm. rewrite E, Hm. reflexivity.
Qed.

Lemma X9_statistics_wait_witness :
  draws_only [MoveTo origin; LineTo origin] = true /\
  moments (snd (fst (run replay_parent [MoveTo origin; LineTo origin]
                         ([moments pen_square], pen_blank))))
    = moments pen_square /\
  stats (snd (fst (run replay_parent [MoveTo origin; LineTo origin]
                       ([moments pen_square], pen_blank))))
    = stats pen_blank.
Proof.
  split; [reflexivity|]. split; [reflexivity|].
  apply (X9_statistics_wait_for_close replay_parent
           [MoveTo origin; LineTo origin] ([moments pen_square], pen_blank)).
  reflexivity.
Defined.

(** X10: over the whole life of a pen the stored correlation and slant are
    never NaN: they are the int 0 on a new pen, and no sequence of drawing
    commands and closes, completed or stopped by an exception of the
    accumulator or of a recomputation, leaves a NaN in either. *)
Theorem X10_lifetime_never_nan {L : Libm} {B : Type} (P : Parent B)
        (cs : list command) (b : B) (m : Moments) :
  is_NaN (correlation (stats (__init__ m))) = false /\
  is_NaN (slant (stats (__init__ m))) = false /\
  is_NaN (correlation (stats (snd (fst (run P cs (b, __init__ m)))))) = false /\
  is_NaN (slant (stats (snd (fst (run P cs (b, __init__ m)))))) = false.
Proof.
  split; [reflexivity|]. split; [reflexivity|].
  exact (new_pen_run_clean P cs b m).
Qed.

(** ** The driver *)

Example test_square_completes :
  snd (test_square (PyInt 2) (PyInt 1) [0%nat; 0%nat]) = Done tt /\
  length (fst (test_square (PyInt 2) (PyInt 1) [0%nat; 0%nat])) = 41%nat /\
  nth 40 (fst (test_square (PyInt 2) (PyInt 1) [0%nat; 0%nat])) BlankLine
    = FigureLine slant_perceptual 0 /\
  nth 36 (fst (test_square (PyInt 2) (PyInt 1) [0%nat; 0%nat])) BlankLine
    = FigureLine weight 0.5 /\
  nth 38 (fst (test_square (PyInt 2) (PyInt 1) [0%nat; 0%nat])) BlankLine
    = FigureLine width_figure 2.
Proof. repeat split; reflexivity. Qed.

Section DriverFacts.

Context {L : Libm} {Name Glyph B : Type}.
Variable glyphset : Name -> option Glyph.
Variable width : Glyph -> pyval.
Variable P : Parent B.
Variable start : B * Moments.
Variable outline : Glyph -> float -> list command.

Local Abbreviation measure' := (measure glyphset width P start outline).
Local Abbreviation measure_all' := (measure_all glyphset width P start outline).
Local Abbreviation test' := (_test glyphset width P start outline).

Lemma dbind_done {A C : Type} (c : @D Name A) (k : A -> @D Name C)
      (out : list line) (b : C) :
  dbind c k = (out, Done b) ->
  exists out1 a out2,
    c = (out1, Done a) /\ k a = (out2, Done b) /\ out = out1 ++ out2.
Proof.
  unfold dbind. destruct c as [out1 [a|f]]; [|discriminate].
  destruct (k a) as [out2 r] eqn:E. intros [= <- ->].
  exists out1, a, out2. auto.
Qed.

Lemma arith_done {A : Type} (r : result A) (out : list (@line Name)) (a : A) :
  arith r = (out, Done a) -> r = Ok a.
Proof. destruct r; simpl; [intros [= _ ->]; reflexivity | discriminate]. Qed.

Lemma arith_bind_done {A C : Type} (r : result A) (k : A -> @D Name C)
      (out : list line) (b : C) :
  dbind (arith r) k = (out, Done b) ->
  exists a, r = Ok a /\ k a = (out, Done b).
Proof.
  unfold dbind, arith. destruct r as [a|e]; [|discriminate].
  destruct (k a) as [out' r'] eqn:E. simpl. intros <-. exists a. auto.
Qed.

Lemma one_over_zero (upem : pyval) :
  Py.truthy upem = false ->
  Py.truediv (PyFloat 1) upem = Raise ZeroDivisionError.
Proof.
  intros H. destruct (truthy_false_zero upem H) as [->|[->| ->]]; reflexivity.
Qed.

Lemma over_int_zero (x : pyval) : exists e, Py.truediv x (PyInt 0) = Raise e.
Proof. apply truediv_by_zero. reflexivity. Qed.

(** What a completed pass of the loop body went through. *)
Lemma measure_done (upem : pyval) (g : Name) (s s' : sums) (out : list line) :
  measure' upem g s = (out, Done s') ->
  exists glyph factor,
    glyphset g = Some glyph /\
    Py.truediv (PyFloat 1) upem = Ok factor /\
    PyNum.add (wdth_sum s) (width glyph) = Ok (wdth_sum s') /\
    length out = 17%nat.
Proof.
  unfold measure. intros H.
  apply dbind_done in H as (o1 & [] & o2 & [= <-] & H & ->).
  apply dbind_done in H as (o1 & [] & o3 & [= <-] & H & ->).
  apply dbind_done in H as (o1 & glyph & o4 & Hg & H & ->).
  unfold lookup in Hg. destruct (glyphset g) as [glyph'|] eqn:Eg;
    [|discriminate]. injection Hg as <- ->.
  apply dbind_done in H as (o1 & factor & o5 & Hf & H & ->).
  pose proof (arith_done _ _ _ Hf) as Ef.
  rewrite Ef in Hf. injection Hf as <-.
  apply dbind_done in H as (o1 & pen & o6 & Hd & H & ->).
  assert (o1 = []) as ->.
  { unfold draw in Hd. destruct run as [o' [[]|e]]; now inversion Hd. }
  apply dbind_done in H as (o1 & [] & o7 & Hi & H & ->).
  assert (length o1 = 15%nat) as Hl.
  { clear H. unfold items in Hi. simpl in Hi.
    repeat match type of Hi with
           | context [arith ?r] => destruct r; simpl in Hi; [|discriminate]
           end.
    injection Hi as <-. reflexivity. }
  apply arith_bind_done in H as (wght & _ & H).
  apply arith_bind_done in H as (p & _ & H).
  apply arith_bind_done in H as (wght_p & _ & H).
  apply arith_bind_done in H as (wdth & Hw & H).
  apply arith_bind_done in H as (slnt & _ & H).
  apply arith_bind_done in H as (q & _ & H).
  apply arith_bind_done in H as (slnt_p & _ & H).
  injection H as <- <-. exists glyph, factor.
  repeat split; try assumption.
  simpl. rewrite !length_app, Hl. reflexivity.
Qed.

Lemma measure_all_done (upem : pyval) (glyphs : list Name) :
  forall (s s' : sums) (out : list line),
    measure_all' upem glyphs s = (out, Done s') ->
    (forall g, In g glyphs -> exists glyph, glyphset g = Some glyph) /\
    (glyphs <> [] -> exists factor, Py.truediv (PyFloat 1) upem = Ok factor) /\
    length out = (17 * length glyphs)%nat.
Proof.
  induction glyphs as [|g rest IH]; simpl; intros s s' out H.
  - injection H as <- <-. repeat split; [intros g []|congruence].
  - apply dbind_done in H as (o1 & s1 & o2 & H1 & H2 & ->).
    apply measure_done in H1 as (glyph & factor & Hg & Hf & _ & Hl).
    destruct (IH _ _ _ H2) as (IH1 & _ & IH3).
    split; [|split].
    + intros g' [<-|Hin]; [now exists glyph | now apply IH1].
    + intros _. now exists factor.
    + rewrite length_app, Hl, IH3. lia.
Qed.

Lemma measure_all_zero_widths (upem : pyval) (glyphs : list Name) :
  (forall g glyph, In g glyphs -> glyphset g = Some glyph ->
                   width glyph = PyInt 0) ->
  forall (s s' : sums) (out : list line),
    wdth_sum s = PyInt 0 ->
    measure_all' upem glyphs s = (out, Done s') ->
    wdth_sum s' = PyInt 0.
Proof.
  induction glyphs as [|g rest IH]; simpl; intros Hw s s' out Hs H.
  - now injection H as <- <-.
  - apply dbind_done in H as (o1 & s1 & o2 & H1 & H2 & ->).
    apply measure_done in H1 as (glyph & factor & Hg & _ & Ha & _).
    rewrite Hs, (Hw g glyph (or_introl eq_refl) Hg) in Ha.
    injection Ha as Ha.
    apply (IH (fun g' gl Hin => Hw g' gl (or_intror Hin)) s1 s' o2);
      [now symmetry | exact H2].
Qed.

Lemma report_zero_width (upem : pyval) (n : Z) (s : sums) (out : list line) :
  wdth_sum s = PyInt 0 ->
  report (Name := Name) upem n s <> (out, Done tt).
Proof.
  intros Hs H. unfold report in H.
  apply dbind_done in H as (o1 & [] & o2 & _ & H & _).
  apply dbind_done in H as (o1' & w & o3 & _ & H & _).
  apply dbind_done in H as (o1'' & v & o4 & H & _).
  apply arith_done in H. rewrite Hs in H.
  destruct (over_int_zero w) as [e He]. congruence.
Qed.

Lemma test_done (upem : pyval) (glyphs : list Name) (out : list line) :
  test' upem glyphs = (out, Done tt) ->
  exists s out1 out2,
    measure_all' upem glyphs no_sums = (out1, Done s) /\
    report upem (Z.of_nat (length glyphs)) s = (out2, Done tt) /\
    out = UpemLine upem :: out1 ++ out2.
Proof.
  unfold _test. intros H.
  apply dbind_done in H as (o1 & [] & o2 & [= <-] & H & ->).
  apply dbind_done in H as (o1 & s & o3 & H1 & H2 & ->).
  exists s, o1, o3. auto.
Qed.

Lemma report_done (upem : pyval) (n : Z) (s : sums) (out : list line) :
  report (Name := Name) upem n s = (out, Done tt) ->
  Py.truthy (wdth_sum s) = true /\ length out = 6%nat.
Proof.
  intros H. split.
  - destruct (Py.truthy (wdth_sum s)) eqn:Ht; [reflexivity|].
    unfold report in H.
    apply dbind_done in H as (o1 & [] & o2 & _ & H & _).
    apply arith_bind_done in H as (w & _ & H).
    apply arith_bind_done in H as (v & H & _).
    destruct (truediv_by_zero w (wdth_sum s) Ht) as [e He]. congruence.
  - unfold report in H.
    apply dbind_done in H as (o1 & [] & o2 & [= <-] & H & ->).
    repeat (apply arith_bind_done in H as (? & _ & H);
            try (apply dbind_done in H as (? & [] & ? & [= <-] & H & ->))).
    injection H as <-. reflexivity.
Qed.

Lemma test_no_glyphs (upem : pyval) :
  test' upem [] =
  ([UpemLine upem; BlankLine], Failed (Arithmetic ZeroDivisionError)).
Proof. destruct upem; reflexivity. Qed.

End DriverFacts.

(** X11: on an empty glyph list the driver prints the upem line and a blank
    line and then raises ZeroDivisionError at line 118, whose divisor is the
    sum of no widths, the int 0: whatever the glyph set and the upem. *)
Theorem X11_no_glyphs {L : Libm} {Name Glyph B : Type}
        (glyphset : Name -> option Glyph) (width : Glyph -> pyval)
        (P : Parent B) (start : B * Moments)
        (outline : Glyph -> float -> list command) (upem : pyval) :
  _test glyphset width P start outline upem [] =
  ([UpemLine upem; BlankLine], Failed (Arithmetic ZeroDivisionError)).
Proof. apply test_no_glyphs. Qed.

(** X12: with an upem of zero (the int 0, 0.0 or -0.0) and a first glyph
    that the glyph set holds, the driver raises ZeroDivisionError at line 90,
    in [1.0 / upem]: after the upem line, a blank line and the name of that
    glyph, before anything is drawn or measured. *)
Theorem X12_zero_upem {L : Libm} {Name Glyph B : Type}
        (glyphset : Name -> option Glyph) (width : Glyph -> pyval)
        (P : Parent B) (start : B * Moments)
        (outline : Glyph -> float -> list command)
        (upem : pyval) (g : Name) (rest : list Name) (glyph : Glyph) :
  Py.truthy upem = false ->
  glyphset g = Some glyph ->
  _test glyphset width P start outline upem (g :: rest) =
  ([UpemLine upem; BlankLine; GlyphLine g],
   Failed (Arithmetic ZeroDivisionError)).
Proof.
  intros Hu Hg. unfold _test. cbn [measure_all]. unfold measure, lookup.
  rewrite Hg, (one_over_zero upem Hu). reflexivity.
Qed.

Lemma X12_zero_upem_witness :
  Py.truthy (PyFloat (-0)) = false /\
  one_glyph (PyInt 2) 0 = Some (PyInt 2) /\
  test_square (PyInt 2) (PyFloat (-0)) [0%nat; 1%nat] =
  ([UpemLine (PyFloat (-0)); BlankLine; GlyphLine 0%nat],
   Failed (Arithmetic ZeroDivisionError)).
Proof.
  split; [reflexivity|]. split; [reflexivity|].
  apply (X12_zero_upem (one_glyph (PyInt 2)) (fun glyph => glyph)
           replay_parent ([moments pen_square], no_totals)
           (fun _ _ => contour) (PyFloat (-0)) 0%nat [1%nat] (PyInt 2));
    reflexivity.
Defined.

(** X13: what a run of the driver that completes went through: the glyph
    list is not empty, the upem is not zero, the glyph set holds every name
    of the list, and the output is the upem line, seventeen lines for each
    glyph and six lines at the end. *)
Theorem X13_completed_run {L : Libm} {Name Glyph B : Type}
        (glyphset : Name -> option Glyph) (width : Glyph -> pyval)
        (P : Parent B) (start : B * Moments)
        (outline : Glyph -> float -> list command)
        (upem : pyval) (glyphs : list Name) (out : list line) :
  _test glyphset width P start outline upem glyphs = (out, Done tt) ->
  glyphs <> [] /\
  Py.truthy upem = true /\
  (forall g, In g glyphs -> exists glyph, glyphset g = Some glyph) /\
  length out = (7 + 17 * length glyphs)%nat.
Proof.
  intros H.
  assert (Hne : glyphs <> []).
  { intros ->. rewrite test_no_glyphs in H. discriminate. }
  apply test_done in H as (s & out1 & out2 & Hm & Hr & ->).
  apply measure_all_done in Hm as (Hin & Hf & Hl).
  apply report_done in Hr as (_ & Hl').
  split; [exact Hne|]. split; [|split; [exact Hin|]].
  - destruct (Py.truthy upem) eqn:Ht; [reflexivity|].
    destruct (Hf Hne) as [factor Hf'].
    rewrite (one_over_zero upem Ht) in Hf'. discriminate.
  - simpl. rewrite length_app, Hl, Hl'. lia.
Qed.

Lemma X13_completed_run_witness :
  test_square (PyInt 2) (PyInt 1) [0%nat; 0%nat] =
    (fst (test_square (PyInt 2) (PyInt 1) [0%nat; 0%nat]), Done tt) /\
  length (fst (test_square (PyInt 2) (PyInt 1) [0%nat; 0%nat])) =
    (7 + 17 * 2)%nat.
Proof.
  split; [reflexivity|].
  apply (X13_completed_run (one_glyph (PyInt 2)) (fun glyph => glyph)
           replay_parent ([moments pen_square], no_totals)
           (fun _ _ => contour) (PyInt 1) [0%nat; 0%nat]).
  reflexivity.
Defined.

(** X14: when every glyph of the list has the advance width int 0, the
    driver never completes: the sum of the widths that lines 118, 119 and
    122 divide by is still the int 0. *)
Theorem X14_zero_widths {L : Libm} {Name Glyph B : Type}
        (glyphset : Name -> option Glyph) (width : Glyph -> pyval)
        (P : Parent B) (start : B * Moments)
        (outline : Glyph -> float -> list command)
        (upem : pyval) (glyphs : list Name) (out : list line) :
  (forall g glyph, In g glyphs -> glyphset g = Some glyph ->
                   width glyph = PyInt 0) ->
  _test glyphset width P start outline upem glyphs <> (out, Done tt).
Proof.
  intros Hw H.
  apply test_done in H as (s & out1 & out2 & Hm & Hr & _).
  apply (measure_all_zero_widths _ _ _ _ _ _ _ Hw) in Hm; [|reflexivity].
  now apply report_zero_width in Hr.
Qed.

Lemma X14_zero_widths_witness :
  (forall g glyph, In g [0%nat; 0%nat] ->
                   one_glyph (PyInt 0) g = Some glyph -> glyph = PyInt 0) /\
  snd (test_square (PyInt 0) (PyInt 1) [0%nat; 0%nat]) =
    Failed (Arithmetic ZeroDivisionError) /\
  test_square (PyInt 0) (PyInt 1) [0%nat; 0%nat] <>
    (fst (test_square (PyInt 0) (PyInt 1) [0%nat; 0%nat]), Done tt).
Proof.
  assert (Hw : forall g glyph, In g [0%nat; 0%nat] ->
                 one_glyph (PyInt 0) g = Some glyph -> glyph = PyInt 0).
  { intros g glyph _. destruct g; simpl; congruence. }
  split; [exact Hw|]. split; [reflexivity|].
  apply (X14_zero_widths (one_glyph (PyInt 0)) (fun glyph => glyph)
           replay_parent ([moments pen_square], no_totals)
           (fun _ _ => contour) (PyInt 1) [0%nat; 0%nat]).
  exact Hw.
Defined.
